(** * QSTrader: the rebalancing position sizer, the monthly strategy and
      the trading-session loop

    A shallow embedding of
    - [qstrader/position_sizer/rebalance.py]
      ([LiquidateRebalancePositionSizer.size_order]),
    - [examples/monthly_liquidate_rebalance_backtest.py]
      ([MonthlyLiquidateRebalanceStrategy]),
    - [qstrader/trading_session.py] ([TradingSession]),
    - [qstrader/settings.py] ([from_env], [from_file]).

    Conventions.
    - A Python [dict] is a [gmap]; [d[k]] is [getitem], which raises
      [KeyError] on a missing key.
    - Python exceptions are values of [exn]; a computation that may raise
      returns a [result].
    - Objects that the code mutates in place live in a state that is
      threaded explicitly through the monad [M]; a raised exception keeps
      the writes performed before it.
    - Python [float]s are modelled by exact rationals ([Q]); the rounding
      of binary64 arithmetic is outside the model.  Integers are [Z]. *)

From Stdlib Require Import ZArith QArith Qround Lia.
From stdpp Require Import base option strings gmap list.

Local Open Scope Z_scope.

(** ** Exceptions and results *)

Inductive exn : Type :=
| KeyError (key : string)
| ZeroDivisionError
| TypeError (msg : string)
| AttributeError (msg : string)
| IllegalMonthError (month : Z)
| Exception (msg : string)
| InvalidReference.

Inductive result (A : Type) : Type :=
| Ok (a : A)
| Raise (e : exn).
Arguments Ok {A} a.
Arguments Raise {A} e.

(** The state-and-exception monad: a computation over a mutable state [S]
    either returns a value or raises, and in both cases leaves a state. *)
Definition M (S A : Type) : Type := S -> result A * S.

Definition ret {S A} (a : A) : M S A := fun s => (Ok a, s).
Definition raise {S A} (e : exn) : M S A := fun s => (Raise e, s).
Definition bind {S A B} (m : M S A) (k : A -> M S B) : M S B :=
  fun s => match m s with
           | (Ok a, s') => k a s'
           | (Raise e, s') => (Raise e, s')
           end.
Definition gets {S A} (f : S -> A) : M S A := fun s => (Ok (f s), s).
Definition modify {S} (f : S -> S) : M S unit := fun s => (Ok tt, f s).
Definition lift {S A} (r : result A) : M S A := fun s => (r, s).

Declare Scope py_scope.
Delimit Scope py_scope with py.
Notation "x <- m ;; k" := (bind m (fun x => k))
  (at level 100, m at next level, right associativity) : py_scope.
Notation "m ;; k" := (bind m (fun _ => k))
  (at level 100, right associativity) : py_scope.

(** [d[k]] on a dict. *)
Definition getitem {V} (d : gmap string V) (k : string) : result V :=
  match d !! k with
  | Some v => Ok v
  | None => Raise (KeyError k)
  end.

(** ** Events ([qstrader/event.py], used through its interface) *)

Module Event.

(** The members of the [EventType] enumeration, and [OTHER] for any
    value of an event's [type] attribute that is none of them. *)
Inductive EventType : Type :=
| TICK | BAR | SIGNAL | ORDER | FILL | SENTIMENT
| OTHER (tag : string).

#[export] Instance EventType_eq_dec : EqDecision EventType.
Proof. solve_decision. Defined.

(** A naive [datetime.datetime]; values are compared field by field,
    most significant first. *)
Record datetime : Type := mk_datetime {
  year : Z;
  month : Z;
  day : Z;
  hour : Z;
  minute : Z;
  second : Z;
  microsecond : Z;
}.

Definition datetime_fields (t : datetime) : list Z :=
  [year t; month t; day t; hour t; minute t; second t; microsecond t].

Fixpoint lex_ltb (a b : list Z) : bool :=
  match a, b with
  | x :: a', y :: b' => (x <? y) || ((x =? y) && lex_ltb a' b')
  | [], _ :: _ => true
  | _, [] => false
  end.

(** [a < b] on datetimes. *)
Definition datetime_ltb (a b : datetime) : bool :=
  lex_ltb (datetime_fields a) (datetime_fields b).

(** Modelled from the spec: the [OrderEvent] class is declared in
    [qstrader/event.py], which is not part of the sources at hand.  An
    event carries a timestamp and a ticker symbol; the payload of an
    order is its action and its quantity. *)
Record OrderEvent : Type := mk_order {
  time : option datetime;
  ticker : string;
  action : string;
  quantity : Z;
}.

Definition set_action (a : string) (o : OrderEvent) : OrderEvent :=
  {| time := time o; ticker := ticker o; action := a;
     quantity := quantity o |}.

Definition set_quantity (q : Z) (o : OrderEvent) : OrderEvent :=
  {| time := time o; ticker := ticker o; action := action o;
     quantity := q |}.

(** Modelled from the spec: [SignalEvent(ticker, action)], a trading
    intention that is not yet sized into shares. *)
Record SignalEvent : Type := mk_signal {
  signal_ticker : string;
  signal_action : string;
}.

(** The events that travel through the queue, as a tagged union.  The
    price fields of bars and ticks and the price and commission of a
    fill are never read by the code under study and are left out. *)
Inductive event : Type :=
| TickEvent (time : datetime) (ticker : string)
| BarEvent (time : datetime) (ticker : string)
| SentimentEvent (time : datetime) (ticker : string)
| Signal (s : SignalEvent)
| Order (o : OrderEvent)
| FillEvent (time : datetime) (ticker : string) (action : string)
            (quantity : Z)
| UnsupportedEvent (tag : string).

(** The [type] attribute of an event. *)
Definition type (e : event) : EventType :=
  match e with
  | TickEvent _ _ => TICK
  | BarEvent _ _ => BAR
  | SentimentEvent _ _ => SENTIMENT
  | Signal _ => SIGNAL
  | Order _ => ORDER
  | FillEvent _ _ _ _ => FILL
  | UnsupportedEvent tag => OTHER tag
  end.

End Event.

(** ** Portfolio state ([qstrader/portfolio.py], [qstrader/position.py] and
       the price handlers, used through their attributes) *)

Module Portfolio.

(** Modelled from the spec: the [Position] class is not part of the
    sources at hand.  A position is the per-ticker record of a signed
    share quantity, an average cost basis and realised and unrealised
    profit and loss. *)
Record Position : Type := mk_position {
  quantity : Z;
  avg_price : Z;
  realised_pnl : Z;
  unrealised_pnl : Z;
}.

(** The price handler's [tickers] attribute: for each ticker a dict of
    the latest fields ([adj_close] among them for a bar feed), prices in
    the integer unit of [PriceParser]. *)
Record PriceHandler : Type := mk_price_handler {
  tickers : gmap string (gmap string Z);
}.

Record Portfolio : Type := mk_portfolio {
  price_handler : PriceHandler;
  equity : Z;
  positions : gmap string Position;
}.

(** Modelled from the spec: applying an executed order to a position's
    signed quantity.  A position is netted by trading its size in the
    opposite direction: a sale ([SLD]) takes the traded quantity off the
    signed quantity, a purchase ([BOT]) adds it. *)
Definition apply_order (q : Z) (o : Event.OrderEvent) : Z :=
  if decide (Event.action o = "BOT") then q + Event.quantity o
  else if decide (Event.action o = "SLD") then q - Event.quantity o
  else q.

End Portfolio.

(** ** Fixed-point prices ([qstrader/price_parser.py], a parameter) *)

(** [PriceParser.display] turns a value in the integer unit into the
    number shown to a human; [PriceParser.parse] goes the other way and
    may fail.  Both are taken as parameters. *)
Class PriceParser : Type := {
  parse : Q -> result Z;
  display : Z -> Q;
}.

(** ** [qstrader/position_sizer/rebalance.py] *)

Module Rebalance.
Import Event Portfolio.

(** Order objects are shared between the portfolio handler, the sizer
    and the execution handler: they live in a heap and are passed by
    reference. *)
Abbreviation ref := positive (only parsing).
Abbreviation Heap := (gmap positive OrderEvent) (only parsing).

Definition getattr {A} (f : OrderEvent -> A) (r : ref) : M Heap A :=
  fun h => match h !! r with
           | Some o => (Ok (f o), h)
           | None => (Raise InvalidReference, h)
           end.

Definition setattr (f : OrderEvent -> OrderEvent) (r : ref) : M Heap unit :=
  fun h => match h !! r with
           | Some o => (Ok tt, <[r := f o]> h)
           | None => (Raise InvalidReference, h)
           end.

Record LiquidateRebalancePositionSizer : Type := mk_sizer {
  ticker_weights : gmap string Q;
}.

(** [int(floor(a / b))] on floats: division by zero raises. *)
Definition floor_div (a b : Q) : result Z :=
  if Qeq_bool b 0 then Raise ZeroDivisionError
  else Ok (Qfloor (a / b)).

Definition size_order {PP : PriceParser}
    (self : LiquidateRebalancePositionSizer)
    (portfolio : Portfolio) (initial_order : ref) : M Heap ref :=
  (ticker <- getattr Event.ticker initial_order ;;
   action <- getattr Event.action initial_order ;;
   (if decide (action = "EXIT") then
      (* Obtain current quantity and liquidate *)
      pos <- lift (getitem (positions portfolio) ticker) ;;
      let cur_quantity := Portfolio.quantity pos in
      if 0 <? cur_quantity then
        setattr (set_action "SLD") initial_order ;;
        setattr (set_quantity cur_quantity) initial_order
      else
        setattr (set_action "BOT") initial_order ;;
        setattr (set_quantity cur_quantity) initial_order
    else
      weight <- lift (getitem (ticker_weights self) ticker) ;;
      row <- lift (getitem (tickers (price_handler portfolio)) ticker) ;;
      price <- lift (getitem row "adj_close") ;;
      let price := display price in
      let equity := display (Portfolio.equity portfolio) in
      let dollar_weight := (weight * equity)%Q in
      weighted_quantity <- lift (floor_div dollar_weight price) ;;
      setattr (set_quantity weighted_quantity) initial_order) ;;
   ret initial_order)%py.

(** The order that the [EXIT] branch leaves in place of [o] for a
    position of signed quantity [q]. *)
Definition liquidation (q : Z) (o : OrderEvent) : OrderEvent :=
  set_quantity q (set_action (if 0 <? q then "SLD" else "BOT") o).

(** The quantity computed by the other branch, as a function of the
    ticker alone. *)
Definition weighted_quantity {PP : PriceParser}
    (self : LiquidateRebalancePositionSizer) (portfolio : Portfolio)
    (ticker : string) : result Z :=
  match getitem (ticker_weights self) ticker with
  | Raise e => Raise e
  | Ok weight =>
      match getitem (tickers (price_handler portfolio)) ticker with
      | Raise e => Raise e
      | Ok row =>
          match getitem row "adj_close" with
          | Raise e => Raise e
          | Ok price =>
              floor_div (weight * display (Portfolio.equity portfolio))
                        (display price)
          end
      end
  end.

End Rebalance.

(** ** [examples/monthly_liquidate_rebalance_backtest.py] *)

Module Strategy.
Import Event.

(** The strategy object.  [events_queue] holds the content of the
    queue the strategy writes to, oldest event first: [put] appends at
    the end. *)
Record MonthlyLiquidateRebalanceStrategy : Type := mk_strategy {
  tickers : list string;
  events_queue : list event;
  tickers_invested : gmap string bool;
}.

Definition put (e : event) : M MonthlyLiquidateRebalanceStrategy unit :=
  modify (fun self =>
    {| tickers := tickers self;
       events_queue := events_queue self ++ [e];
       tickers_invested := tickers_invested self |}).

Definition set_invested (ticker : string) (b : bool)
  : M MonthlyLiquidateRebalanceStrategy unit :=
  modify (fun self =>
    {| tickers := tickers self;
       events_queue := events_queue self;
       tickers_invested := <[ticker := b]> (tickers_invested self) |}).

(** [calendar.isleap] *)
Definition isleap (year : Z) : bool :=
  (year mod 4 =? 0) && (negb (year mod 100 =? 0) || (year mod 400 =? 0)).

(** [calendar.mdays] *)
Definition mdays : list Z :=
  [0; 31; 28; 31; 30; 31; 30; 31; 31; 30; 31; 30; 31].

(** [calendar.monthrange(year, month)[1]]: the number of days of the
    month. *)
Definition monthrange_ndays (year month : Z) : result Z :=
  if negb ((1 <=? month) && (month <=? 12)) then
    Raise (IllegalMonthError month)
  else
    Ok (nth (Z.to_nat month) mdays 0
        + (if (month =? 2) && isleap year then 1 else 0)).

Definition _end_of_month (cur_time : datetime) : result bool :=
  let cur_day := day cur_time in
  match monthrange_ndays (year cur_time) (month cur_time) with
  | Ok end_day => Ok (cur_day =? end_day)
  | Raise e => Raise e
  end.

(** [{ticker: False for ticker in self.tickers}] *)
Definition _create_invested_list (tickers : list string)
  : gmap string bool :=
  fold_left (fun d ticker => <[ticker := false]> d) tickers ∅.

Definition __init__ (tickers : list string) (events_queue : list event)
  : MonthlyLiquidateRebalanceStrategy :=
  {| tickers := tickers;
     events_queue := events_queue;
     tickers_invested := _create_invested_list tickers |}.

(** [SignalEvent(ticker, "EXIT")] and [SignalEvent(ticker, "BOT")] *)
Definition liquidate_signal (ticker : string) : event :=
  Signal (mk_signal ticker "EXIT").
Definition long_signal (ticker : string) : event :=
  Signal (mk_signal ticker "BOT").

(** The body guarded by the [if] of [calculate_signals]. *)
Definition emit_signals (ticker : string)
  : M MonthlyLiquidateRebalanceStrategy unit :=
  (invested <- (fun self =>
                  lift (getitem (tickers_invested self) ticker) self) ;;
   (if invested : bool then
      put (liquidate_signal ticker)
    else ret tt) ;;
   put (long_signal ticker) ;;
   set_invested ticker true)%py.

Definition calculate_signals (event : event)
  : M MonthlyLiquidateRebalanceStrategy unit :=
  match event with
  | BarEvent time ticker | TickEvent time ticker =>
      (end_of_month <- lift (_end_of_month time) ;;
       if end_of_month : bool then emit_signals ticker else ret tt)%py
  | _ => ret tt
  end.

(** The state of the strategy after a sequence of calls of
    [calculate_signals], one per event; a call that raises leaves the
    object as it stands at that point. *)
Definition run_calls (events : list event)
    (self : MonthlyLiquidateRebalanceStrategy)
  : MonthlyLiquidateRebalanceStrategy :=
  fold_left (fun self event => snd (calculate_signals event self)) events self.

(** The Gregorian calendar in words: a year is a leap year when it is
    a multiple of 400, or a multiple of 4 that is not a multiple of
    100; February has 29 days in a leap year and 28 otherwise; April,
    June, September and November have 30 days; the other months 31. *)
Definition leap_year (y : Z) : bool :=
  if y mod 400 =? 0 then true
  else if y mod 100 =? 0 then false
  else y mod 4 =? 0.

Definition last_calendar_day (y m : Z) : Z :=
  if m =? 2 then (if leap_year y then 29 else 28)
  else if (m =? 4) || (m =? 6) || (m =? 9) || (m =? 11) then 30
  else 31.

Definition is_last_calendar_day (t : datetime) : bool :=
  day t =? last_calendar_day (year t) (month t).

End Strategy.

(** ** [qstrader/trading_session.py] *)

Module TradingSession.
Import Event.

(** The collaborators of a session are external: the classes of the
    components, their constructors and the methods the session calls
    are parameters.  [World] is the joint mutable state of the
    collaborators, of the shared events queue and of the wall clock. *)
Class Collaborators : Type := {
  World : Type;
  Config : Type;
  AbstractStrategy : Type;
  Queue : Type;
  AbstractPriceHandler : Type;
  PortfolioHandler : Type;
  AbstractCompliance : Type;
  AbstractPositionSizer : Type;
  AbstractExecutionHandler : Type;
  AbstractRiskManager : Type;
  AbstractStatistics : Type;
  AbstractSentimentHandler : Type;
  (* [config.CSV_DATA_DIR] *)
  CSV_DATA_DIR : Config -> result string;
  (* the default components built by [_config_session] *)
  YahooDailyCsvBarPriceHandler :
    string -> Queue -> list string -> datetime -> datetime ->
    M World AbstractPriceHandler;
  FixedPositionSizer : M World AbstractPositionSizer;
  ExampleRiskManager : M World AbstractRiskManager;
  new_PortfolioHandler :
    Z -> Queue -> option AbstractPriceHandler ->
    option AbstractPositionSizer -> option AbstractRiskManager ->
    M World PortfolioHandler;
  ExampleCompliance : Config -> M World AbstractCompliance;
  IBSimulatedExecutionHandler :
    Queue -> option AbstractPriceHandler -> option AbstractCompliance ->
    M World AbstractExecutionHandler;
  TearsheetStatistics :
    Config -> option PortfolioHandler -> option (list string) ->
    option string -> M World AbstractStatistics;
  (* [price_handler.continue_backtest] and [price_handler.stream_next()] *)
  continue_backtest : AbstractPriceHandler -> World -> bool;
  stream_next : AbstractPriceHandler -> M World unit;
  (* [datetime.now()] *)
  now : World -> datetime * World;
  (* [events_queue.get(False)]; [None] stands for [queue.Empty], and
     [Some None] for a dequeued Python [None] *)
  get : Queue -> World -> option (option event) * World;
  sentiment_stream_next : AbstractSentimentHandler -> datetime -> M World unit;
  calculate_signals : AbstractStrategy -> event -> M World unit;
  update_portfolio_value : PortfolioHandler -> M World unit;
  statistics_update :
    AbstractStatistics -> datetime -> PortfolioHandler -> M World unit;
  on_signal : PortfolioHandler -> event -> M World unit;
  execute_order : AbstractExecutionHandler -> event -> M World unit;
  on_fill : PortfolioHandler -> event -> M World unit;
}.

Section WithCollaborators.
Context {PP : PriceParser} {C : Collaborators}.

(** The arguments of [TradingSession.__init__]. *)
Record Args : Type := mk_args {
  arg_config : Config;
  arg_strategy : AbstractStrategy;
  arg_tickers : list string;
  arg_equity : Q;
  arg_start_date : datetime;
  arg_end_date : datetime;
  arg_events_queue : Queue;
  arg_session_type : string;
  arg_end_session_time : option datetime;
  arg_price_handler : option AbstractPriceHandler;
  arg_portfolio_handler : option PortfolioHandler;
  arg_compliance : option AbstractCompliance;
  arg_position_sizer : option AbstractPositionSizer;
  arg_execution_handler : option AbstractExecutionHandler;
  arg_risk_manager : option AbstractRiskManager;
  arg_statistics : option AbstractStatistics;
  arg_sentiment_handler : option AbstractSentimentHandler;
  arg_title : option (list string);
  arg_benchmark : option string;
}.

(** The attributes of a [TradingSession] object; an attribute that
    may hold [None] is an [option]. *)
Record TradingSession : Type := mk_session {
  end_session_time : option datetime;
  config : Config;
  strategy : AbstractStrategy;
  tickers : list string;
  equity : Z;
  start_date : datetime;
  end_date : datetime;
  events_queue : Queue;
  price_handler : option AbstractPriceHandler;
  portfolio_handler : option PortfolioHandler;
  compliance : option AbstractCompliance;
  execution_handler : option AbstractExecutionHandler;
  position_sizer : option AbstractPositionSizer;
  risk_manager : option AbstractRiskManager;
  statistics : option AbstractStatistics;
  sentiment_handler : option AbstractSentimentHandler;
  title : option (list string);
  benchmark : option string;
  session_type : string;
  cur_time : option datetime;
}.

Definition set_price_handler v (s : TradingSession) : TradingSession :=
  let 'mk_session a b c d e f g h _ j k l m n o p q r t u := s in
  mk_session a b c d e f g h v j k l m n o p q r t u.
Definition set_portfolio_handler v (s : TradingSession) : TradingSession :=
  let 'mk_session a b c d e f g h i _ k l m n o p q r t u := s in
  mk_session a b c d e f g h i v k l m n o p q r t u.
Definition set_compliance v (s : TradingSession) : TradingSession :=
  let 'mk_session a b c d e f g h i j _ l m n o p q r t u := s in
  mk_session a b c d e f g h i j v l m n o p q r t u.
Definition set_execution_handler v (s : TradingSession) : TradingSession :=
  let 'mk_session a b c d e f g h i j k _ m n o p q r t u := s in
  mk_session a b c d e f g h i j k v m n o p q r t u.
Definition set_position_sizer v (s : TradingSession) : TradingSession :=
  let 'mk_session a b c d e f g h i j k l _ n o p q r t u := s in
  mk_session a b c d e f g h i j k l v n o p q r t u.
Definition set_risk_manager v (s : TradingSession) : TradingSession :=
  let 'mk_session a b c d e f g h i j k l m _ o p q r t u := s in
  mk_session a b c d e f g h i j k l m v o p q r t u.
Definition set_statistics v (s : TradingSession) : TradingSession :=
  let 'mk_session a b c d e f g h i j k l m n _ p q r t u := s in
  mk_session a b c d e f g h i j k l m n v p q r t u.
Definition set_cur_time v (s : TradingSession) : TradingSession :=
  let 'mk_session a b c d e f g h i j k l m n o p q r t _ := s in
  mk_session a b c d e f g h i j k l m n o p q r t v.

(** The state of a running session: the session object and the
    world of its collaborators. *)
Definition St : Type := (TradingSession * World)%type.

(** Reading an attribute of [self]. *)
Definition self_ {A} (f : TradingSession -> A) : M St A :=
  gets (fun s => f (fst s)).

(** Writing attributes of [self]. *)
Definition update_self (f : TradingSession -> TradingSession) : M St unit :=
  modify (fun s => (f (fst s), snd s)).

(** Running a collaborator. *)
Definition call {A} (m : M World A) : M St A :=
  fun s => let '(r, w) := m (snd s) in (r, (fst s, w)).

(** Calling a method on an attribute that holds [None] raises
    [AttributeError]. *)
Definition not_None {A} (name : string) (o : option A) : M St A :=
  match o with
  | Some x => ret x
  | None => raise (AttributeError name)
  end.

Definition _config_session : M St unit :=
  (ph <- self_ price_handler ;;
   ty <- self_ session_type ;;
   (if (if ph is None then bool_decide (ty = "backtest") else false) then
      cfg <- self_ config ;;
      dir <- lift (CSV_DATA_DIR cfg) ;;
      q <- self_ events_queue ;;
      tk <- self_ tickers ;;
      sd <- self_ start_date ;;
      ed <- self_ end_date ;;
      p <- call (YahooDailyCsvBarPriceHandler dir q tk sd ed) ;;
      update_self (set_price_handler (Some p))
    else ret tt) ;;
   ps <- self_ position_sizer ;;
   (if ps is None then
      p <- call FixedPositionSizer ;;
      update_self (set_position_sizer (Some p))
    else ret tt) ;;
   rm <- self_ risk_manager ;;
   (if rm is None then
      r <- call ExampleRiskManager ;;
      update_self (set_risk_manager (Some r))
    else ret tt) ;;
   pfh <- self_ portfolio_handler ;;
   (if pfh is None then
      eq <- self_ equity ;;
      q <- self_ events_queue ;;
      ph <- self_ price_handler ;;
      ps <- self_ position_sizer ;;
      rm <- self_ risk_manager ;;
      p <- call (new_PortfolioHandler eq q ph ps rm) ;;
      update_self (set_portfolio_handler (Some p))
    else ret tt) ;;
   cp <- self_ compliance ;;
   (if cp is None then
      cfg <- self_ config ;;
      c <- call (ExampleCompliance cfg) ;;
      update_self (set_compliance (Some c))
    else ret tt) ;;
   eh <- self_ execution_handler ;;
   (if eh is None then
      q <- self_ events_queue ;;
      ph <- self_ price_handler ;;
      cp <- self_ compliance ;;
      e <- call (IBSimulatedExecutionHandler q ph cp) ;;
      update_self (set_execution_handler (Some e))
    else ret tt) ;;
   st <- self_ statistics ;;
   (if st is None then
      cfg <- self_ config ;;
      pfh <- self_ portfolio_handler ;;
      ti <- self_ title ;;
      bm <- self_ benchmark ;;
      s <- call (TearsheetStatistics cfg pfh ti bm) ;;
      update_self (set_statistics (Some s))
    else ret tt))%py.

(** The exception of the check that ends [__init__]. *)
Definition missing_end_session_time : exn :=
  Exception "Must specify an end_session_time when live trading".

(** The object that [__init__] has filled in when it calls
    [_config_session]. *)
Definition initial_self (a : Args) (equity : Z) : TradingSession :=
  {| end_session_time := arg_end_session_time a;
     config := arg_config a;
     strategy := arg_strategy a;
     tickers := arg_tickers a;
     equity := equity;
     start_date := arg_start_date a;
     end_date := arg_end_date a;
     events_queue := arg_events_queue a;
     price_handler := arg_price_handler a;
     portfolio_handler := arg_portfolio_handler a;
     compliance := arg_compliance a;
     execution_handler := arg_execution_handler a;
     position_sizer := arg_position_sizer a;
     risk_manager := arg_risk_manager a;
     statistics := arg_statistics a;
     sentiment_handler := arg_sentiment_handler a;
     title := arg_title a;
     benchmark := arg_benchmark a;
     session_type := arg_session_type a;
     cur_time := None |}.

Definition __init__ (a : Args) : M World TradingSession :=
  (equity <- lift (parse (arg_equity a)) ;;
   let self := initial_self a equity in
   fun w =>
     let '(r, (self, w)) :=
       (_config_session ;;
        update_self (set_cur_time None) ;;
        ty <- self_ session_type ;;
        if bool_decide (ty = "live") then
          est <- self_ end_session_time ;;
          if est is None then
            raise missing_end_session_time
          else ret tt
        else ret tt) (self, w) in
     (match r with Ok _ => Ok self | Raise e => Raise e end, w))%py.

Definition _continue_loop_condition : M St bool :=
  (ty <- self_ session_type ;;
   if bool_decide (ty = "backtest") then
     ph <- self_ price_handler ;;
     ph <- not_None "continue_backtest" ph ;;
     call (gets (continue_backtest ph))
   else
     t <- call (fun w => let '(t, w) := now w in (Ok t, w)) ;;
     est <- self_ end_session_time ;;
     match est with
     | Some e => ret (datetime_ltb t e)
     | None =>
         raise (TypeError
           "'<' not supported between 'datetime.datetime' and 'NoneType'")
     end)%py.

(** What [raise NotImplemented(...)] raises: [NotImplemented] is a
    constant, not an exception class, and calling it is a [TypeError]. *)
Definition unsupported : exn :=
  TypeError "'NotImplementedType' object is not callable".

(** The dispatch on [event.type] for a dequeued event that is not
    [None]. *)
Definition dispatch (event : event) : M St unit :=
  match event with
  | TickEvent time _ | BarEvent time _ =>
      (update_self (set_cur_time (Some time)) ;;
       (* Generate any sentiment events here *)
       sh <- self_ sentiment_handler ;;
       (if sh is Some sh then
          (* stream_date=self.cur_time, which holds event.time *)
          call (sentiment_stream_next sh time)
        else ret tt) ;;
       st <- self_ strategy ;;
       call (calculate_signals st event) ;;
       pfh <- self_ portfolio_handler ;;
       pfh <- not_None "update_portfolio_value" pfh ;;
       call (update_portfolio_value pfh) ;;
       sts <- self_ statistics ;;
       sts <- not_None "update" sts ;;
       call (statistics_update sts time pfh))%py
  | SentimentEvent _ _ =>
      (st <- self_ strategy ;;
       call (calculate_signals st event))%py
  | Signal _ =>
      (pfh <- self_ portfolio_handler ;;
       pfh <- not_None "on_signal" pfh ;;
       call (on_signal pfh event))%py
  | Order _ =>
      (eh <- self_ execution_handler ;;
       eh <- not_None "execute_order" eh ;;
       call (execute_order eh event))%py
  | FillEvent _ _ _ _ =>
      (pfh <- self_ portfolio_handler ;;
       pfh <- not_None "on_fill" pfh ;;
       call (on_fill pfh event))%py
  | UnsupportedEvent _ =>
      raise unsupported
  end.

(** One pass through the body of the [while] loop. *)
Definition loop_body : M St unit :=
  (q <- self_ events_queue ;;
   got <- call (fun w => let '(r, w) := get q w in (Ok r, w)) ;;
   match got with
   | None =>
       (* except queue.Empty *)
       ph <- self_ price_handler ;;
       ph <- not_None "stream_next" ph ;;
       call (stream_next ph)
   | Some None => ret tt
   | Some (Some event) => dispatch event
   end)%py.

(** How a bounded run of the loop ends: the loop was left because
    its condition was false, or the bound was reached first. *)
Inductive loop_end : Type := Finished | OutOfFuel.

(** [while self._continue_loop_condition(): ...], run for at most
    [fuel] evaluations of the condition. *)
Fixpoint while_loop (fuel : nat) : M St loop_end :=
  match fuel with
  | O => ret OutOfFuel
  | S fuel =>
      (continue <- _continue_loop_condition ;;
       if continue : bool then loop_body ;; while_loop fuel
       else ret Finished)%py
  end.

(** The two [print] calls before the loop write to the console and
    are left out. *)
Definition _run_session (fuel : nat) : M St loop_end :=
  while_loop fuel.

(** The state after [k] passes through the body of the loop, each one
    entered on a condition that was evaluated once and found true;
    [None] when one of these conditions is false or something raises. *)
Fixpoint iterations (k : nat) (s : St) : option St :=
  match k with
  | O => Some s
  | S k =>
      match _continue_loop_condition s with
      | (Ok true, s1) =>
          match loop_body s1 with
          | (Ok _, s2) => iterations k s2
          | (Raise _, _) => None
          end
      | _ => None
      end
  end.

(** A computation keeps the session type and the end of session time
    of [self]. *)
Definition keeps_settings {A} (m : M St A) : Prop :=
  forall s r s', m s = (r, s') ->
    session_type (fst s') = session_type (fst s)
    /\ end_session_time (fst s') = end_session_time (fst s).

End WithCollaborators.
End TradingSession.

(** ** Concrete instances *)

Module Examples.
Import Event Portfolio.

(** A price parser with five decimal places. *)
Definition PRICE_MULTIPLIER : Z := 100000.

#[export] Instance five_places : PriceParser := {|
  parse := fun x => Ok (Qfloor (x * inject_Z PRICE_MULTIPLIER));
  display := fun x => (inject_Z x / inject_Z PRICE_MULTIPLIER)%Q;
|}.

Definition sizer_60_40 : Rebalance.LiquidateRebalancePositionSizer :=
  Rebalance.mk_sizer {[ "SPY" := (6 # 10)%Q; "AGG" := (4 # 10)%Q ]}.

Definition sizer_half : Rebalance.LiquidateRebalancePositionSizer :=
  Rebalance.mk_sizer {[ "SPY" := (1 # 2)%Q ]}.

(** SPY at 100 and AGG at 50. *)
Definition bar_feed : PriceHandler :=
  mk_price_handler
    {[ "SPY" := {[ "adj_close" := 10000000; "close" := 10000000 ]};
       "AGG" := {[ "adj_close" := 5000000; "close" := 5000000 ]} ]}.

(** SPY at 10. *)
Definition bar_feed_10 : PriceHandler :=
  mk_price_handler {[ "SPY" := {[ "adj_close" := 1000000 ]} ]}.

(** Equity 500000 and no position yet. *)
Definition fresh_portfolio : Portfolio :=
  mk_portfolio bar_feed 50000000000 ∅.

(** Equity 500000 and a long position of 3000 shares of SPY. *)
Definition long_portfolio : Portfolio :=
  mk_portfolio bar_feed 50000000000
    {[ "SPY" := mk_position 3000 10000000 0 0 ]}.

(** Equity 500000 and a short position of 5 shares of SPY. *)
Definition short_portfolio : Portfolio :=
  mk_portfolio bar_feed 50000000000
    {[ "SPY" := mk_position (-5) 10000000 0 0 ]}.


Definition exit_SPY : OrderEvent := mk_order None "SPY" "EXIT" 0.
Definition buy_SPY : OrderEvent := mk_order None "SPY" "BOT" 0.
Definition buy_XOM : OrderEvent := mk_order None "XOM" "BOT" 0.

(** The last day of February 2016, the eve of it, and the last day of
    March 2016. *)
Definition feb_29 : datetime := mk_datetime 2016 2 29 0 0 0 0.
Definition feb_28 : datetime := mk_datetime 2016 2 28 0 0 0 0.
Definition mar_31 : datetime := mk_datetime 2016 3 31 0 0 0 0.

Definition fresh_strategy : Strategy.MonthlyLiquidateRebalanceStrategy :=
  Strategy.__init__ ["SPY"; "AGG"] [].

(** A world for a session: the content of the events queue, the number
    of bars the feed still holds and the reading of the wall clock. *)
Record SimWorld : Type := mk_world {
  pending : list (option event);
  remaining : nat;
  clock : datetime;
}.

(** Collaborators over [SimWorld]: the feed enqueues one bar for SPY
    per step until it is exhausted, the clock does not move, and the
    other components do nothing. *)
#[export] Instance sim : TradingSession.Collaborators := {|
  TradingSession.World := SimWorld;
  TradingSession.Config := unit;
  TradingSession.AbstractStrategy := unit;
  TradingSession.Queue := unit;
  TradingSession.AbstractPriceHandler := unit;
  TradingSession.PortfolioHandler := unit;
  TradingSession.AbstractCompliance := unit;
  TradingSession.AbstractPositionSizer := unit;
  TradingSession.AbstractExecutionHandler := unit;
  TradingSession.AbstractRiskManager := unit;
  TradingSession.AbstractStatistics := unit;
  TradingSession.AbstractSentimentHandler := unit;
  TradingSession.CSV_DATA_DIR := fun _ => Ok "data";
  TradingSession.YahooDailyCsvBarPriceHandler := fun _ _ _ _ _ => ret tt;
  TradingSession.FixedPositionSizer := ret tt;
  TradingSession.ExampleRiskManager := ret tt;
  TradingSession.new_PortfolioHandler := fun _ _ _ _ _ => ret tt;
  TradingSession.ExampleCompliance := fun _ => ret tt;
  TradingSession.IBSimulatedExecutionHandler := fun _ _ _ => ret tt;
  TradingSession.TearsheetStatistics := fun _ _ _ _ => ret tt;
  TradingSession.continue_backtest := fun _ w =>
    negb (Nat.eqb (remaining w) 0);
  TradingSession.stream_next := fun _ w =>
    (Ok tt,
     {| pending := pending w ++ [Some (BarEvent (clock w) "SPY")];
        remaining := Nat.pred (remaining w);
        clock := clock w |});
  TradingSession.now := fun w => (clock w, w);
  TradingSession.get := fun _ w =>
    match pending w with
    | [] => (None, w)
    | e :: rest =>
        (Some e,
         {| pending := rest; remaining := remaining w; clock := clock w |})
    end;
  TradingSession.sentiment_stream_next := fun _ _ => ret tt;
  TradingSession.calculate_signals := fun _ _ => ret tt;
  TradingSession.update_portfolio_value := fun _ => ret tt;
  TradingSession.statistics_update := fun _ _ _ => ret tt;
  TradingSession.on_signal := fun _ _ => ret tt;
  TradingSession.execute_order := fun _ _ => ret tt;
  TradingSession.on_fill := fun _ _ => ret tt;
|}.

Definition session_args (session_type : string)
    (end_session_time : option datetime)
  : @TradingSession.Args sim :=
  @TradingSession.mk_args sim tt tt ["SPY"; "AGG"] 500000 feb_28 mar_31 tt
    session_type end_session_time
    None None None None None None None None None None.

(** A configured backtest session. *)
Definition backtest_session : @TradingSession.TradingSession sim :=
  @TradingSession.mk_session sim None tt tt ["SPY"; "AGG"] 50000000000
    feb_28 mar_31 tt (Some tt) (Some tt) (Some tt) (Some tt) (Some tt)
    (Some tt) (Some tt) None None None "backtest" None.

(** A configured live session that ends with February 2016. *)
Definition live_session : @TradingSession.TradingSession sim :=
  @TradingSession.mk_session sim (Some feb_29) tt tt ["SPY"; "AGG"]
    50000000000 feb_28 mar_31 tt (Some tt) (Some tt) (Some tt) (Some tt)
    (Some tt) (Some tt) (Some tt) None None None "live" None.

End Examples.

(** ** Notions about the signals of the monthly strategy *)

Module StrategyNotions.
Import Event Strategy.

(** The events the strategy enqueues. *)
Definition is_strategy_signal (e : event) : Prop :=
  exists t, e = liquidate_signal t \/ e = long_signal t.


End StrategyNotions.

(** ** [TradingSession.start_trading] *)

Module Reporting.
Import Event TradingSession.

(** The two methods of the statistics component that [start_trading]
    calls, parameters like the other collaborators. *)
Class Results {C : Collaborators} : Type := {
  (* [statistics.get_results()]: a dict of figures *)
  get_results : AbstractStatistics -> M World (gmap string Q);
  (* [statistics.plot_results()] *)
  plot_results : AbstractStatistics -> M World unit;
}.

(** [start_trading(testing)], with the loop run for at most [fuel]
    evaluations of its condition; [None] when that bound is reached.
    The [print] calls write to the console and are left out, their
    arguments [results["sharpe"]] and [results["max_drawdown_pct"]] are
    evaluated. *)
Definition start_trading {C : Collaborators} {R : Results}
    (fuel : nat) (testing : bool) : M St (option (gmap string Q)) :=
  (ended <- _run_session fuel ;;
   match ended with
   | OutOfFuel => ret None
   | Finished =>
       st <- self_ statistics ;;
       st <- not_None "get_results" st ;;
       results <- call (get_results st) ;;
       lift (getitem results "sharpe") ;;
       lift (getitem results "max_drawdown_pct") ;;
       (if negb testing then
          st <- self_ statistics ;;
          st <- not_None "plot_results" st ;;
          call (plot_results st)
        else ret tt) ;;
       ret (Some results)
   end)%py.

End Reporting.

(** ** [qstrader/settings.py] *)

Module Settings.

(** What the module takes from Python and from the operating system:
    string functions, the YAML library and the files. *)
Class Platform : Type := {
  (* [str.upper] *)
  upper : string -> string;
  (* ["%r" % s] for a string [s] *)
  repr : string -> string;
  (* [os.path.expanduser] *)
  expanduser : string -> string;
  (* the values a configuration can hold; [munchify] and [unmunchify]
     change the class of the dicts in a value, not its content *)
  value : Type;
  (* a dict whose values are strings or [None] *)
  dict_value : gmap string (option string) -> value;
  (* [yaml.safe_load] on the content of a file *)
  safe_load : string -> result value;
  (* [yaml.dump(v, explicit_start=True, indent=True,
                default_flow_style=False)] *)
  dump : value -> string;
  (* the file system *)
  FS : Type;
  (* opening a file and reading it; [None] stands for [IOError] *)
  read_file : string -> FS -> option string;
  (* opening a file for writing and writing a text; the flag tells
     whether this went without [IOError] *)
  write_file : string -> string -> FS -> bool * FS;
}.

Section WithPlatform.
Context {P : Platform}.

(** The process: its environment variables, the files, what was
    printed and the warnings issued, oldest first. *)
Record Process : Type := mk_process {
  environ : gmap string string;
  files : FS;
  stdout : list string;
  warnings : list string;
}.

Definition print (line : string) : M Process unit :=
  modify (fun p =>
    {| environ := environ p; files := files p;
       stdout := stdout p ++ [line]; warnings := warnings p |}).

Definition warn (message : string) : M Process unit :=
  modify (fun p =>
    {| environ := environ p; files := files p;
       stdout := stdout p; warnings := warnings p ++ [message] |}).

Definition set_files (fs : FS) (p : Process) : Process :=
  {| environ := environ p; files := fs;
     stdout := stdout p; warnings := warnings p |}.

Definition ENV_VAR_ROOT : string := "QSTRADER".
Definition DEFAULT_CONFIG_FILENAME : string := "~/qstrader.yml".

(** [default_value == "" or default_value is None] *)
Definition empty_default (default_value : option string) : bool :=
  match default_value with
  | None => true
  | Some d => bool_decide (d = "")
  end.

Definition from_env (key : string) (default_value : option string)
    (root : string) : M Process (option string) :=
  let ENV_VAR_KEY :=
    if bool_decide (root <> "") then root +:+ "_" +:+ upper key
    else upper key in
  if empty_default default_value then
    (env <- gets environ ;;
     match getitem env ENV_VAR_KEY with
     | Ok v => ret (Some v)
     | Raise _ =>
         warn ("You should pass " +:+ key +:+ " using --" +:+ key
               +:+ " or using environment variable " +:+ repr ENV_VAR_KEY) ;;
         ret default_value
     end)%py
  else ret default_value.

(** The module global [DEFAULT], computed when the module is loaded. *)
Definition DEFAULT : M Process value :=
  (csv_data_dir <- from_env "CSV_DATA_DIR" (Some "~/data") ENV_VAR_ROOT ;;
   output_dir <- from_env "OUTPUT_DIR" (Some "~/out") ENV_VAR_ROOT ;;
   ret (dict_value
          {[ "CSV_DATA_DIR" := csv_data_dir; "OUTPUT_DIR" := output_dir ]}))%py.

(** The module global [TEST]. *)
Definition TEST : value :=
  dict_value {[ "CSV_DATA_DIR" := Some "data"; "OUTPUT_DIR" := Some "out" ]}.

Definition newline : string := String (Ascii.ascii_of_nat 10) "".

(** The text of the second [print] of the handler, for the dumped
    default configuration [s_conf]. *)
Definition creating_message (s_conf : string) : string :=
  newline +:+ "Creating this file" +:+ newline +:+ newline +:+ s_conf
  +:+ newline +:+ newline
  +:+ "You still have to create directories with data and put your data in!"
  +:+ newline.

(** [from_file(fname, testing)], in a module whose global [DEFAULT]
    holds [default].  [time.sleep(3)] only delays and is left out. *)
Definition from_file (default : value) (fname : string) (testing : bool)
  : M Process value :=
  if testing then ret TEST
  else
    (fs <- gets files ;;
     match read_file (expanduser fname) fs with
     | Some content =>
         conf <- lift (safe_load content) ;;
         ret conf
     | None =>
         (* except IOError *)
         print ("A configuration file named '" +:+ fname +:+ "' is missing") ;;
         let s_conf := dump default in
         print (creating_message s_conf) ;;
         fs <- gets files ;;
         (let '(written, fs) := write_file (expanduser fname) s_conf fs in
          modify (set_files fs) ;;
          if written : bool then ret tt
          else print ("Can create '" +:+ fname +:+ "'")) ;;
         print "Trying anyway with default configuration" ;;
         ret default
     end)%py.

End WithPlatform.
End Settings.

(** ** More concrete instances *)

Module MoreExamples.
Import Event TradingSession.

(** The statistics of the simulated session report fixed figures. *)
#[export] Instance sim_results : Reporting.Results (C := Examples.sim) := {|
  Reporting.get_results := fun _ =>
    ret {[ "sharpe" := (3 # 2)%Q; "max_drawdown_pct" := (1 # 10)%Q ]};
  Reporting.plot_results := fun _ => ret tt;
|}.

(** Statistics whose results lack the Sharpe ratio. *)
Definition no_sharpe : Reporting.Results (C := Examples.sim) := {|
  Reporting.get_results := fun _ => ret {[ "max_drawdown_pct" := (1 # 10)%Q ]};
  Reporting.plot_results := fun _ => ret tt;
|}.

(** Upper case of an ASCII letter. *)
Definition upper_ascii (c : Ascii.ascii) : Ascii.ascii :=
  let n := Ascii.nat_of_ascii c in
  if (Nat.leb 97 n && Nat.leb n 122)%bool then Ascii.ascii_of_nat (n - 32)
  else c.

Fixpoint upper_string (s : string) : string :=
  match s with
  | EmptyString => EmptyString
  | String c s => String (upper_ascii c) (upper_string s)
  end.

(** A platform whose files are a map from paths to contents, all of
    them writable, where a configuration is written down as the value
    of [CSV_DATA_DIR] alone and the output directory is [out]. *)
#[export] Instance toy_platform : Settings.Platform := {|
  Settings.upper := upper_string;
  Settings.repr := fun s => "'" +:+ s +:+ "'";
  Settings.expanduser := fun path => path;
  Settings.value := gmap string (option string);
  Settings.dict_value := fun d => d;
  Settings.safe_load := fun content =>
    if bool_decide (content = "") then Raise (Exception "YAMLError")
    else Ok {[ "CSV_DATA_DIR" := Some content; "OUTPUT_DIR" := Some "out" ]};
  Settings.dump := fun d =>
    match d !! "CSV_DATA_DIR" with
    | Some (Some dir) => dir
    | _ => ""
    end;
  Settings.FS := gmap string string;
  Settings.read_file := fun path fs => fs !! path;
  Settings.write_file := fun path text fs => (true, <[path := text]> fs);
|}.

(** The same platform on a disk that cannot be written. *)
Definition read_only_platform : Settings.Platform := {|
  Settings.upper := upper_string;
  Settings.repr := fun s => "'" +:+ s +:+ "'";
  Settings.expanduser := fun path => path;
  Settings.value := gmap string (option string);
  Settings.dict_value := fun d => d;
  Settings.safe_load := fun content =>
    if bool_decide (content = "") then Raise (Exception "YAMLError")
    else Ok {[ "CSV_DATA_DIR" := Some content; "OUTPUT_DIR" := Some "out" ]};
  Settings.dump := fun d =>
    match d !! "CSV_DATA_DIR" with
    | Some (Some dir) => dir
    | _ => ""
    end;
  Settings.FS := gmap string string;
  Settings.read_file := fun path fs => fs !! path;
  Settings.write_file := fun path text fs => (false, fs);
|}.

(** A process without environment variables and without files. *)
Definition bare_process : Settings.Process (P := toy_platform) :=
  Settings.mk_process (P := toy_platform) ∅ ∅ [] [].

End MoreExamples.

(** * Properties *)

(** ** Sized orders *)

Section SizeOrder.
Import Event Portfolio Rebalance.
Context {PP : PriceParser}.

Implicit Types (self : LiquidateRebalancePositionSizer) (pf : Portfolio).
Implicit Types (r : ref) (h : Heap) (o : OrderEvent).

Lemma getitem_Some {V} (d : gmap string V) k v :
  d !! k = Some v -> getitem d k = Ok v.
Proof. unfold getitem. by intros ->. Qed.

Lemma getitem_None {V} (d : gmap string V) k :
  d !! k = None -> getitem d k = Raise (KeyError k).
Proof. unfold getitem. by intros ->. Qed.

Lemma size_order_invalid self pf r h :
  h !! r = None ->
  size_order self pf r h = (Raise InvalidReference, h).
Proof.
  intros Hr. unfold size_order, bind, getattr. by rewrite Hr.
Qed.

Lemma size_order_EXIT self pf r h o pos :
  h !! r = Some o ->
  action o = "EXIT" ->
  positions pf !! ticker o = Some pos ->
  size_order self pf r h
  = (Ok r, <[r := liquidation (Portfolio.quantity pos) o]> h).
Proof.
  intros Hr Ha Hp.
  unfold size_order, bind, getattr, lift, ret.
  repeat (rewrite Hr; cbv beta iota).
  case_decide; [|done].
  rewrite (getitem_Some _ _ _ Hp). unfold liquidation.
  destruct (0 <? Portfolio.quantity pos);
    unfold setattr; rewrite Hr, lookup_insert_eq, insert_insert_eq; done.
Qed.

Lemma size_order_EXIT_missing self pf r h o :
  h !! r = Some o ->
  action o = "EXIT" ->
  positions pf !! ticker o = None ->
  size_order self pf r h = (Raise (KeyError (ticker o)), h).
Proof.
  intros Hr Ha Hp.
  unfold size_order, bind, getattr, lift.
  repeat (rewrite Hr; cbv beta iota).
  case_decide; [|done].
  by rewrite (getitem_None _ _ Hp).
Qed.

Lemma size_order_weighted self pf r h o :
  h !! r = Some o ->
  action o <> "EXIT" ->
  size_order self pf r h
  = match weighted_quantity self pf (ticker o) with
    | Ok q => (Ok r, <[r := set_quantity q o]> h)
    | Raise e => (Raise e, h)
    end.
Proof.
  intros Hr Ha.
  unfold size_order, weighted_quantity, bind, getattr, lift, ret.
  repeat (rewrite Hr; cbv beta iota). case_decide; [done|].
  destruct (getitem (ticker_weights self) _) as [w|]; [|done].
  destruct (getitem (tickers _) _) as [row|]; [|done].
  destruct (getitem row _) as [p|]; [|done].
  destruct (floor_div _ _) as [q|]; [|done].
  unfold setattr. by rewrite Hr.
Qed.




End SizeOrder.

Section SizeOrderProperties.
Import Event Portfolio Rebalance.

Implicit Types (self : LiquidateRebalancePositionSizer) (pf : Portfolio).
Implicit Types (r : ref) (h : Heap) (o : OrderEvent).

(** Applying the liquidation order nets the position exactly when the
    position is not short. *)
Lemma liquidation_nets_iff (q : Z) o :
  apply_order q (liquidation q o) = 0 <-> 0 <= q.
Proof.
  unfold apply_order, liquidation. simpl.
  destruct (0 <? q) eqn:E.
  - apply Z.ltb_lt in E. repeat case_decide; try done. lia.
  - apply Z.ltb_ge in E. repeat case_decide; try done. lia.
Qed.

Lemma liquidation_long (q : Z) o :
  0 < q ->
  action (liquidation q o) = "SLD" /\ Event.quantity (liquidation q o) = q.
Proof.
  intros Hq. unfold liquidation. simpl.
  by destruct (Z.ltb_spec 0 q); [|lia].
Qed.

Lemma liquidation_not_long (q : Z) o :
  q <= 0 ->
  action (liquidation q o) = "BOT" /\ Event.quantity (liquidation q o) = q.
Proof.
  intros Hq. unfold liquidation. simpl.
  by destruct (Z.ltb_spec 0 q); [lia|].
Qed.





(** C7: for an order that is not an [EXIT] and whose ticker has no
    entry in the weight table, [size_order] raises [KeyError] for that
    ticker and leaves the order as it was: no quantity is written. *)
Theorem C7_missing_weight_raises {PP : PriceParser} self pf r h o :
  h !! r = Some o ->
  action o <> "EXIT" ->
  ticker_weights self !! ticker o = None ->
  size_order self pf r h = (Raise (KeyError (ticker o)), h).
Proof.
  intros Hr Ha Hw. rewrite (size_order_weighted _ _ _ _ o Hr Ha).
  unfold weighted_quantity. by rewrite (getitem_None _ _ Hw).
Qed.

Lemma C7_missing_weight_raises_witness :
  @size_order Examples.five_places
    Examples.sizer_60_40 Examples.fresh_portfolio 1%positive
    {[ 1%positive := Examples.buy_XOM ]}
  = (Raise (KeyError "XOM"), {[ 1%positive := Examples.buy_XOM ]}).
Proof.
  apply (C7_missing_weight_raises (PP := Examples.five_places)
    Examples.sizer_60_40
           Examples.fresh_portfolio 1%positive _ Examples.buy_XOM);
    [reflexivity | discriminate | reflexivity].
Defined.

(** C8: when [size_order] succeeds it returns the reference it was
    given; the heap differs only at that reference, where the order
    keeps its timestamp and its ticker; and outside the [EXIT] branch
    the action is kept too and only the quantity is written. *)
Theorem C8_size_order_frame {PP : PriceParser} self pf r h r' h' :
  size_order self pf r h = (Ok r', h') ->
  r' = r
  /\ exists o o',
      h !! r = Some o /\ h' = <[r := o']> h
      /\ time o' = time o /\ ticker o' = ticker o
      /\ (action o <> "EXIT" ->
          action o' = action o /\ o' = set_quantity (Event.quantity o') o).
Proof.
  intros Hs. destruct (h !! r) as [o|] eqn:Hr.
  2:{ by rewrite (size_order_invalid _ _ _ _ Hr) in Hs. }
  destruct (decide (action o = "EXIT")) as [Ha|Ha].
  - destruct (positions pf !! ticker o) as [pos|] eqn:Hp.
    + rewrite (size_order_EXIT _ _ _ _ o pos Hr Ha Hp) in Hs.
      injection Hs as <- <-. split; [done|].
      exists o, (liquidation (Portfolio.quantity pos) o). done.
    + by rewrite (size_order_EXIT_missing _ _ _ _ o Hr Ha Hp) in Hs.
  - rewrite (size_order_weighted _ _ _ _ o Hr Ha) in Hs.
    destruct (weighted_quantity self pf (ticker o)) as [q|]; [|done].
    injection Hs as <- <-. split; [done|].
    exists o, (set_quantity q o). done.
Qed.

Lemma C8_size_order_frame_witness :
  exists o o' : OrderEvent,
    ({[ 1%positive := Examples.exit_SPY ]} : Heap) !! 1%positive = Some o
    /\ ({[ 1%positive := mk_order None "SPY" "SLD" 3000 ]} : Heap)
       = <[1%positive := o']> {[ 1%positive := Examples.exit_SPY ]}
    /\ time o' = time o /\ ticker o' = ticker o.
Proof.
  destruct (C8_size_order_frame (PP := Examples.five_places)
              Examples.sizer_60_40 Examples.long_portfolio
              1%positive {[ 1%positive := Examples.exit_SPY ]} 1%positive
              {[ 1%positive := mk_order None "SPY" "SLD" 3000 ]})
    as [_ (o & o' & H1 & H2 & H3 & H4 & _)].
  - rewrite (size_order_EXIT (PP := Examples.five_places) _ _ _ _
               Examples.exit_SPY
               (mk_position 3000 10000000 0 0)); [|done..].
    by rewrite insert_singleton_eq.
  - exists o, o'. done.
Defined.

(** C10: for an [EXIT] order over a ticker without a [Position] record,
    [size_order] raises [KeyError] for that ticker and writes nothing;
    with a record for the ticker it succeeds. *)
Theorem C10_exit_requires_position {PP : PriceParser} self pf r h o :
  h !! r = Some o ->
  action o = "EXIT" ->
  (positions pf !! ticker o = None ->
   size_order self pf r h = (Raise (KeyError (ticker o)), h))
  /\ (forall pos, positions pf !! ticker o = Some pos ->
      exists h', size_order self pf r h = (Ok r, h')).
Proof.
  intros Hr Ha. split.
  - apply (size_order_EXIT_missing _ _ _ _ o Hr Ha).
  - intros pos Hp. eexists. apply (size_order_EXIT _ _ _ _ o pos Hr Ha Hp).
Qed.

Lemma C10_exit_requires_position_witness :
  @size_order Examples.five_places
    Examples.sizer_60_40 Examples.fresh_portfolio 1%positive
    {[ 1%positive := Examples.exit_SPY ]}
  = (Raise (KeyError "SPY"), {[ 1%positive := Examples.exit_SPY ]}).
Proof.
  apply (C10_exit_requires_position (PP := Examples.five_places)
    Examples.sizer_60_40
           Examples.fresh_portfolio 1%positive _ Examples.exit_SPY);
    reflexivity.
Defined.

End SizeOrderProperties.

(** ** The monthly strategy *)

Section StrategyProperties.
Import Event Strategy.

Implicit Types (self : MonthlyLiquidateRebalanceStrategy).
Implicit Types (t ticker : string) (event : event).

Lemma isleap_leap_year (y : Z) : isleap y = leap_year y.
Proof.
  unfold isleap, leap_year.
  destruct (Z.eqb_spec (y mod 400) 0), (Z.eqb_spec (y mod 100) 0),
    (Z.eqb_spec (y mod 4) 0); simpl; try reflexivity;
    exfalso; Z.div_mod_to_equations; lia.
Qed.

(** [_end_of_month] tells the last calendar day of the month. *)
Lemma _end_of_month_last_calendar_day (time : datetime) :
  1 <= month time <= 12 ->
  _end_of_month time = Ok (is_last_calendar_day time).
Proof.
  intros Hm. unfold _end_of_month, monthrange_ndays, is_last_calendar_day,
    last_calendar_day.
  rewrite isleap_leap_year.
  assert (month time = 1 \/ month time = 2 \/ month time = 3
          \/ month time = 4 \/ month time = 5 \/ month time = 6
          \/ month time = 7 \/ month time = 8 \/ month time = 9
          \/ month time = 10 \/ month time = 11 \/ month time = 12)
    as Hcases by lia.
  repeat destruct Hcases as [Hcases|Hcases]; rewrite Hcases; simpl;
    try reflexivity; destruct (leap_year (year time)); reflexivity.
Qed.

Lemma emit_signals_spec ticker self :
  emit_signals ticker self
  = match tickers_invested self !! ticker with
    | None => (Raise (KeyError ticker), self)
    | Some invested =>
        (Ok tt,
         {| tickers := tickers self;
            events_queue :=
              events_queue self
              ++ (if invested : bool then [liquidate_signal ticker] else [])
              ++ [long_signal ticker];
            tickers_invested := <[ticker := true]> (tickers_invested self) |})
    end.
Proof.
  unfold emit_signals, bind, lift, getitem.
  destruct (tickers_invested self !! ticker) as [[]|]; [| |done].
  - unfold put, set_invested, modify. simpl. by rewrite <- app_assoc.
  - unfold put, set_invested, modify, ret. simpl. done.
Qed.

Lemma calculate_signals_market event time ticker self :
  event = BarEvent time ticker \/ event = TickEvent time ticker ->
  calculate_signals event self
  = match _end_of_month time with
    | Ok true => emit_signals ticker self
    | Ok false => (Ok tt, self)
    | Raise e => (Raise e, self)
    end.
Proof.
  intros [-> | ->]; unfold calculate_signals, bind, lift, ret;
    by destruct (_end_of_month time) as [[]|].
Qed.

Lemma calculate_signals_other event self :
  type event <> BAR -> type event <> TICK ->
  calculate_signals event self = (Ok tt, self).
Proof. by destruct event. Qed.

(** One call moves no flag except, possibly, from false to true. *)
Lemma calculate_signals_step event self t :
  let self' := snd (calculate_signals event self) in
  tickers_invested self' !! t = tickers_invested self !! t
  \/ (tickers_invested self !! t = Some false
      /\ tickers_invested self' !! t = Some true).
Proof.
  assert (forall ticker,
    let self' := snd (emit_signals ticker self) in
    tickers_invested self' !! t = tickers_invested self !! t
    \/ (tickers_invested self !! t = Some false
        /\ tickers_invested self' !! t = Some true)) as Hemit.
  { intros ticker. rewrite emit_signals_spec.
    destruct (tickers_invested self !! ticker) as [b|] eqn:Hb; simpl;
      [|by left].
    destruct (decide (ticker = t)) as [->|Hne].
    - rewrite lookup_insert_eq, Hb. destruct b; [by left | by right].
    - rewrite lookup_insert_ne by done. by left. }
  destruct event as [time ticker|time ticker| | | | |];
    try (by left).
  - rewrite (calculate_signals_market _ time ticker) by (by right).
    destruct (_end_of_month time) as [[]|]; [apply Hemit | by left..].
  - rewrite (calculate_signals_market _ time ticker) by (by left).
    destruct (_end_of_month time) as [[]|]; [apply Hemit | by left..].
Qed.

Lemma _create_invested_list_lookup (l : list string) (d : gmap string bool) t :
  fold_left (fun d ticker => <[ticker := false]> d) l d !! t
  = if decide (t ∈ l) then Some false else d !! t.
Proof.
  revert d. induction l as [|k l IH]; intros d; cbn [fold_left].
  - case_decide as Hin; [by apply elem_of_nil in Hin | done].
  - rewrite IH.
    destruct (decide (t ∈ l)) as [Hl|Hl], (decide (t ∈ k :: l)) as [Hkl|Hkl].
    + done.
    + exfalso. apply Hkl, elem_of_cons. by right.
    + apply elem_of_cons in Hkl as [->|Hkl]; [|done].
      apply lookup_insert_eq.
    + apply lookup_insert_ne. intros ->. apply Hkl, elem_of_cons. by left.
Qed.



(** C6: at construction the flag of every ticker of the strategy is
    false and no flag is true; a call of [calculate_signals] leaves
    each flag as it is or moves it from false to true; and whatever the
    sequence of calls, a flag that is true stays true. *)
Theorem C6_invested_flag_monotonic :
  (forall tickers queue t,
      t ∈ tickers ->
      tickers_invested (__init__ tickers queue) !! t = Some false)
  /\ (forall tickers queue t,
      tickers_invested (__init__ tickers queue) !! t <> Some true)
  /\ (forall event self t,
      let self' := snd (calculate_signals event self) in
      tickers_invested self' !! t = tickers_invested self !! t
      \/ (tickers_invested self !! t = Some false
          /\ tickers_invested self' !! t = Some true))
  /\ (forall events self t,
      tickers_invested self !! t = Some true ->
      tickers_invested (run_calls events self) !! t = Some true).
Proof.
  split_and!.
  - intros tk q t Hin. simpl. unfold _create_invested_list.
    rewrite _create_invested_list_lookup. by rewrite decide_True.
  - intros tk q t. simpl. unfold _create_invested_list.
    rewrite _create_invested_list_lookup. by case_decide.
  - apply calculate_signals_step.
  - intros events. induction events as [|e events IH]; intros self t Ht;
      [done|]. simpl. apply IH.
    destruct (calculate_signals_step e self t) as [Heq|[_ Htrue]];
      [by rewrite Heq | done].
Qed.

Lemma C6_invested_flag_monotonic_witness :
  tickers_invested Examples.fresh_strategy !! "SPY" = Some false
  /\ tickers_invested
       (run_calls
          [BarEvent Examples.feb_28 "SPY"; BarEvent Examples.mar_31 "SPY"]
          (snd (calculate_signals (BarEvent Examples.feb_29 "SPY")
                  Examples.fresh_strategy))) !! "SPY" = Some true.
Proof.
  destruct C6_invested_flag_monotonic as (Hinit & _ & _ & Hrun).
  split.
  - apply Hinit. apply elem_of_cons. by left.
  - apply Hrun. reflexivity.
Defined.

End StrategyProperties.

(** ** The trading session *)

Section SessionProperties.
Import Event TradingSession.
Context {PP : PriceParser} {C : Collaborators}.

Implicit Types (self : TradingSession) (w : World) (s : St).



Lemma _continue_loop_condition_backtest self w ph :
  session_type self = "backtest" ->
  price_handler self = Some ph ->
  _continue_loop_condition (self, w)
  = (Ok (continue_backtest ph w), (self, w)).
Proof.
  intros Hty Hph. unfold _continue_loop_condition, bind, self_, gets. simpl.
  rewrite (bool_decide_eq_true_2 _ Hty). simpl.
  rewrite Hph. reflexivity.
Qed.


Lemma while_loop_unfold (fuel : nat) s :
  while_loop (S fuel) s
  = match _continue_loop_condition s with
    | (Ok true, s1) =>
        match loop_body s1 with
        | (Ok _, s2) => while_loop fuel s2
        | (Raise e, s2) => (Raise e, s2)
        end
    | (Ok false, s1) => (Ok Finished, s1)
    | (Raise e, s1) => (Raise e, s1)
    end.
Proof.
  simpl. unfold bind.
  destruct (_continue_loop_condition s) as [[[]|] s1]; try done.
Qed.



Lemma dispatch_unsupported (e : event) s :
  type e ∉ [TICK; BAR; SENTIMENT; SIGNAL; ORDER; FILL] ->
  dispatch e s = (Raise unsupported, s).
Proof.
  intros Hty. destruct e; try reflexivity; exfalso; apply Hty; simpl;
    repeat (apply elem_of_cons; first [by left | right]).
Qed.

Lemma loop_body_dequeued (e : event) s w' :
  get (events_queue (fst s)) (snd s) = (Some (Some e), w') ->
  loop_body s = dispatch e (fst s, w').
Proof.
  intros Hget. unfold loop_body, bind, self_, gets, call. simpl.
  by rewrite Hget.
Qed.

(** C5: a dequeued event that is not [None] and whose type is none of
    [TICK], [BAR], [SENTIMENT], [SIGNAL], [ORDER] and [FILL] makes the
    dispatch raise; no collaborator is called, and the pass through the
    loop and the run of the session end with that exception. *)
Theorem C5_unsupported_event_raises (e : event) :
  type e ∉ [TICK; BAR; SENTIMENT; SIGNAL; ORDER; FILL] ->
  (forall s, dispatch e s = (Raise unsupported, s))
  /\ (forall s w',
      get (events_queue (fst s)) (snd s) = (Some (Some e), w') ->
      loop_body s = (Raise unsupported, (fst s, w')))
  /\ (forall fuel s0 s w',
      _continue_loop_condition s0 = (Ok true, s) ->
      get (events_queue (fst s)) (snd s) = (Some (Some e), w') ->
      _run_session (S fuel) s0 = (Raise unsupported, (fst s, w'))).
Proof.
  intros Hty. split_and!.
  - intros s. by apply dispatch_unsupported.
  - intros s w' Hget. rewrite (loop_body_dequeued e s w' Hget).
    by apply dispatch_unsupported.
  - intros fuel s0 s w' Hc Hget. unfold _run_session.
    rewrite while_loop_unfold, Hc, (loop_body_dequeued e s w' Hget).
    by rewrite dispatch_unsupported.
Qed.

(** *** Construction *)

Lemma keeps_ret {A} (a : A) : keeps_settings (ret a).
Proof. by intros s r s' [= _ <-]. Qed.

Lemma keeps_raise {A} (e : exn) : keeps_settings (@raise St A e).
Proof. by intros s r s' [= _ <-]. Qed.

Lemma keeps_lift {A} (x : result A) : keeps_settings (lift x).
Proof. by intros s r s' [= _ <-]. Qed.

Lemma keeps_self_ {A} (f : TradingSession -> A) : keeps_settings (self_ f).
Proof. by intros s r s' [= _ <-]. Qed.

Lemma keeps_call {A} (m : M World A) : keeps_settings (call m).
Proof.
  intros s r s'. unfold call. destruct (m (snd s)) as [r0 w0].
  by intros [= _ <-].
Qed.

Lemma keeps_update_self (f : TradingSession -> TradingSession) :
  (forall self, session_type (f self) = session_type self) ->
  (forall self, end_session_time (f self) = end_session_time self) ->
  keeps_settings (update_self f).
Proof. intros Hty He s r s' [= _ <-]. simpl. by rewrite Hty, He. Qed.

Lemma keeps_bind {A B} (m : M St A) (k : A -> M St B) :
  keeps_settings m -> (forall a, keeps_settings (k a)) ->
  keeps_settings (bind m k).
Proof.
  intros Hm Hk s r s'. unfold bind.
  destruct (m s) as [[a|e] s1] eqn:Hms.
  - intros Hks. destruct (Hm _ _ _ Hms) as [H1 H2].
    destruct (Hk a _ _ _ Hks) as [H3 H4]. split; congruence.
  - intros [= _ <-]. by apply (Hm _ _ _ Hms).
Qed.

Ltac keeps_step :=
  first
    [ apply keeps_bind; [|intros ?]
    | apply keeps_self_
    | apply keeps_call
    | apply keeps_lift
    | apply keeps_ret
    | apply keeps_update_self; intros []; reflexivity
    | match goal with
      | |- keeps_settings (match ?c with _ => _ end) => destruct c
      end ].

Lemma _config_session_keeps_settings : keeps_settings _config_session.
Proof. unfold _config_session. repeat keeps_step. Qed.

(** What [__init__] does once the equity is parsed and
    [_config_session] has returned. *)
Lemma __init___after_config (a : Args) w equity r self' w' :
  parse (arg_equity a) = Ok equity ->
  _config_session (initial_self a equity, w) = (r, (self', w')) ->
  __init__ a w
  = match r with
    | Raise e => (Raise e, w')
    | Ok _ =>
        if bool_decide (arg_session_type a = "live") then
          match arg_end_session_time a with
          | None => (Raise missing_end_session_time, w')
          | Some _ => (Ok (set_cur_time None self'), w')
          end
        else (Ok (set_cur_time None self'), w')
    end.
Proof.
  intros Hparse Hcfg.
  destruct (_config_session_keeps_settings _ _ _ Hcfg) as [Hty He].
  simpl in Hty, He.
  unfold __init__, bind at 1, lift. rewrite Hparse. cbv zeta.
  unfold bind at 1. rewrite Hcfg. destruct r as [[]|e]; [|done].
  unfold bind, update_self, modify, self_, gets. simpl.
  assert (session_type (set_cur_time None self') = arg_session_type a)
    as Hty' by (by rewrite <- Hty; destruct self').
  assert (end_session_time (set_cur_time None self') = arg_end_session_time a)
    as He' by (by rewrite <- He; destruct self').
  rewrite Hty'. case_bool_decide; [|done].
  simpl. rewrite He'. by destruct (arg_end_session_time a).
Qed.

(** C9: constructing a session of type [live] without an end of session
    time raises, and raises the exception of the final check whenever
    the components could be set up; constructing a session of type
    [backtest] returns the session whenever the components could be set
    up, whatever the end of session time, and an exception it raises is
    one raised by the parsing of the equity or by [_config_session]. *)
Theorem C9_live_session_requires_end_time (a : Args) w :
  (arg_session_type a = "live" ->
   arg_end_session_time a = None ->
   (exists e w', __init__ a w = (Raise e, w'))
   /\ (forall equity self' w',
       parse (arg_equity a) = Ok equity ->
       _config_session (initial_self a equity, w) = (Ok tt, (self', w')) ->
       __init__ a w = (Raise missing_end_session_time, w')))
  /\ (arg_session_type a = "backtest" ->
      (forall equity self' w',
          parse (arg_equity a) = Ok equity ->
          _config_session (initial_self a equity, w) = (Ok tt, (self', w')) ->
          __init__ a w = (Ok (set_cur_time None self'), w'))
      /\ (forall e w',
          __init__ a w = (Raise e, w') ->
          parse (arg_equity a) = Raise e
          \/ exists equity self',
              parse (arg_equity a) = Ok equity
              /\ _config_session (initial_self a equity, w)
                 = (Raise e, (self', w')))).
Proof.
  split.
  - intros Hty He. split.
    + destruct (parse (arg_equity a)) as [equity|e] eqn:Hparse.
      * destruct (_config_session (initial_self a equity, w))
          as [r [self' w']] eqn:Hcfg.
        rewrite (__init___after_config a w equity r self' w' Hparse Hcfg).
        destruct r as [|e]; [|by eauto].
        rewrite (bool_decide_eq_true_2 _ Hty), He. by eauto.
      * exists e, w. unfold __init__, bind, lift. by rewrite Hparse.
    + intros equity self' w' Hparse Hcfg.
      rewrite (__init___after_config a w equity _ self' w' Hparse Hcfg).
      by rewrite (bool_decide_eq_true_2 _ Hty), He.
  - intros Hty.
    assert (arg_session_type a <> "live") as Hlive by (by rewrite Hty).
    split.
    + intros equity self' w' Hparse Hcfg.
      rewrite (__init___after_config a w equity _ self' w' Hparse Hcfg).
      by rewrite (bool_decide_eq_false_2 _ Hlive).
    + intros e w'. destruct (parse (arg_equity a)) as [equity|e0] eqn:Hparse.
      * destruct (_config_session (initial_self a equity, w))
          as [r [self1 w1]] eqn:Hcfg.
        rewrite (__init___after_config a w equity r self1 w1 Hparse Hcfg).
        destruct r as [|e1].
        -- by rewrite (bool_decide_eq_false_2 _ Hlive).
        -- intros [= <- <-]. right. by exists equity, self1.
      * unfold __init__, bind, lift. rewrite Hparse.
        intros [= <- _]. by left.
Qed.

End SessionProperties.

Section SessionExamples.
Import Event TradingSession.


Lemma C5_unsupported_event_raises_witness :
  _run_session 3
    (Examples.backtest_session,
     Examples.mk_world [Some (UnsupportedEvent "HEARTBEAT")] 1 Examples.feb_28)
  = (Raise unsupported,
     (Examples.backtest_session, Examples.mk_world [] 1 Examples.feb_28)).
Proof.
  destruct (C5_unsupported_event_raises (C := Examples.sim)
              (UnsupportedEvent "HEARTBEAT")) as (_ & _ & Hrun).
  - simpl. intros Hin. repeat (apply elem_of_cons in Hin as [Hin|Hin];
      [discriminate Hin|]). by apply elem_of_nil in Hin.
  - apply (Hrun 2%nat _ (Examples.backtest_session,
      Examples.mk_world [Some (UnsupportedEvent "HEARTBEAT")] 1
        Examples.feb_28)); reflexivity.
Defined.

Lemma C9_live_session_requires_end_time_witness :
  __init__ (PP := Examples.five_places) (Examples.session_args "live" None)
    (Examples.mk_world [] 1 Examples.feb_28)
  = (Raise missing_end_session_time, Examples.mk_world [] 1 Examples.feb_28)
  /\ __init__ (PP := Examples.five_places)
       (Examples.session_args "backtest" None)
       (Examples.mk_world [] 1 Examples.feb_28)
     = (Ok Examples.backtest_session, Examples.mk_world [] 1 Examples.feb_28).
Proof.
  split.
  - destruct (C9_live_session_requires_end_time (PP := Examples.five_places)
                (Examples.session_args "live" None)
                (Examples.mk_world [] 1 Examples.feb_28)) as [Hlive _].
    destruct (Hlive eq_refl eq_refl) as [_ Hraise].
    eapply Hraise; reflexivity.
  - destruct (C9_live_session_requires_end_time (PP := Examples.five_places)
                (Examples.session_args "backtest" None)
                (Examples.mk_world [] 1 Examples.feb_28)) as [_ Hbacktest].
    destruct (Hbacktest eq_refl) as [Hok _].
    eapply (Hok 50000000000 Examples.backtest_session); reflexivity.
Defined.

End SessionExamples.

(** * Further properties *)

(** ** [size_order] *)

Section SizeOrderMore.
Import Event Portfolio Rebalance.
Context {PP : PriceParser}.

Implicit Types (self : LiquidateRebalancePositionSizer) (pf : Portfolio).
Implicit Types (r : ref) (h : Heap) (o : OrderEvent).


(** X1: a call of [size_order] that raises has written nothing: the
    heap of orders is as it was before the call. *)
Theorem size_order_raise_writes_nothing self pf r h e h' :
  size_order self pf r h = (Raise e, h') -> h' = h.
Proof.
  intros Hs. destruct (h !! r) as [o|] eqn:Hr.
  2:{ rewrite (size_order_invalid _ _ _ _ Hr) in Hs. congruence. }
  destruct (decide (action o = "EXIT")) as [Ha|Ha].
  - destruct (positions pf !! ticker o) as [pos|] eqn:Hp.
    + by rewrite (size_order_EXIT _ _ _ _ o pos Hr Ha Hp) in Hs.
    + rewrite (size_order_EXIT_missing _ _ _ _ o Hr Ha Hp) in Hs. congruence.
  - rewrite (size_order_weighted _ _ _ _ o Hr Ha) in Hs.
    destruct (weighted_quantity self pf (ticker o)); congruence.
Qed.


(** X3: what [size_order] raises, for an order that is not an [EXIT]
    and whose ticker has a weight, when the price is not usable: a
    ticker unknown to the price handler is a [KeyError] for the ticker,
    a price record without adjusted close is a [KeyError] for
    [adj_close], and a price whose display value is zero is a
    [ZeroDivisionError]. *)
Theorem size_order_unusable_price self pf r h o w :
  h !! r = Some o ->
  action o <> "EXIT" ->
  ticker_weights self !! ticker o = Some w ->
  (tickers (price_handler pf) !! ticker o = None ->
   size_order self pf r h = (Raise (KeyError (ticker o)), h))
  /\ (forall row,
      tickers (price_handler pf) !! ticker o = Some row ->
      row !! "adj_close" = None ->
      size_order self pf r h = (Raise (KeyError "adj_close"), h))
  /\ (forall row p,
      tickers (price_handler pf) !! ticker o = Some row ->
      row !! "adj_close" = Some p ->
      (display p == 0)%Q ->
      size_order self pf r h = (Raise ZeroDivisionError, h)).
Proof.
  intros Hr Ha Hw. rewrite (size_order_weighted _ _ _ _ o Hr Ha).
  unfold weighted_quantity. rewrite (getitem_Some _ _ _ Hw). split_and!.
  - intros Hrow. by rewrite (getitem_None _ _ Hrow).
  - intros row Hrow Hp.
    by rewrite (getitem_Some _ _ _ Hrow), (getitem_None _ _ Hp).
  - intros row p Hrow Hp Hz.
    rewrite (getitem_Some _ _ _ Hrow), (getitem_Some _ _ _ Hp).
    unfold floor_div. apply Qeq_bool_iff in Hz. by rewrite Hz.
Qed.

(** X4: liquidation does not look at weights, prices or equity: two
    sizers and two portfolios with the same positions size an [EXIT]
    order in the same way. *)
Theorem size_order_EXIT_reads_positions_only self self' pf pf' r h o :
  h !! r = Some o ->
  action o = "EXIT" ->
  positions pf = positions pf' ->
  size_order self pf r h = size_order self' pf' r h.
Proof.
  intros Hr Ha Hpos. destruct (positions pf !! ticker o) as [pos|] eqn:Hp.
  - rewrite (size_order_EXIT self pf _ _ o pos Hr Ha Hp).
    rewrite Hpos in Hp. by rewrite (size_order_EXIT self' pf' _ _ o pos Hr Ha Hp).
  - rewrite (size_order_EXIT_missing self pf _ _ o Hr Ha Hp).
    rewrite Hpos in Hp. by rewrite (size_order_EXIT_missing self' pf' _ _ o Hr Ha Hp).
Qed.

(** X5: sizing is idempotent on an order that is not an [EXIT]: sizing
    the sized order again against the same portfolio changes nothing. *)
Theorem size_order_idempotent self pf r h o r1 h1 :
  h !! r = Some o ->
  action o <> "EXIT" ->
  size_order self pf r h = (Ok r1, h1) ->
  size_order self pf r1 h1 = (Ok r1, h1).
Proof.
  intros Hr Ha. rewrite (size_order_weighted _ _ _ _ o Hr Ha).
  destruct (weighted_quantity self pf (ticker o)) as [q|] eqn:Hq; [|done].
  intros [= <- <-].
  rewrite (size_order_weighted _ _ _ _ (set_quantity q o));
    [|by rewrite lookup_insert_eq|done].
  simpl. rewrite Hq. by rewrite insert_insert_eq.
Qed.

(** X6: an [EXIT] order is consumed by its sizing: the sized order is a
    [SLD] or a [BOT] order, so that a second call of [size_order] on
    it takes the weighted branch; for a ticker without weight the
    second call raises [KeyError]. *)
Theorem size_order_EXIT_twice self pf r h o pos :
  h !! r = Some o ->
  action o = "EXIT" ->
  positions pf !! ticker o = Some pos ->
  let o1 := liquidation (Portfolio.quantity pos) o in
  size_order self pf r h = (Ok r, <[r := o1]> h)
  /\ action o1 <> "EXIT"
  /\ size_order self pf r (<[r := o1]> h)
     = match weighted_quantity self pf (ticker o) with
       | Ok q => (Ok r, <[r := set_quantity q o1]> h)
       | Raise e => (Raise e, <[r := o1]> h)
       end
  /\ (ticker_weights self !! ticker o = None ->
      size_order self pf r (<[r := o1]> h)
      = (Raise (KeyError (ticker o)), <[r := o1]> h)).
Proof.
  intros Hr Ha Hp o1.
  assert (action o1 <> "EXIT") as Ha1.
  { unfold o1, liquidation. simpl. by destruct (0 <? _). }
  assert (size_order self pf r (<[r := o1]> h)
     = match weighted_quantity self pf (ticker o) with
       | Ok q => (Ok r, <[r := set_quantity q o1]> h)
       | Raise e => (Raise e, <[r := o1]> h)
       end) as Hagain.
  { rewrite (size_order_weighted _ _ _ _ o1); [|by rewrite lookup_insert_eq|done].
    change (ticker o1) with (ticker o).
    destruct (weighted_quantity self pf (ticker o)); [|done].
    by rewrite insert_insert_eq. }
  split_and!; [by apply size_order_EXIT | done | done |].
  intros Hw. rewrite Hagain. unfold weighted_quantity.
  by rewrite (getitem_None _ _ Hw).
Qed.

(** X7: the order written for an [EXIT] carries the signed quantity of
    the position as it is, also when the position is flat or short; it
    is a [SLD] order exactly when the position is long and a [BOT]
    order otherwise; timestamp and ticker are kept. *)
Theorem size_order_EXIT_order self pf r h o pos :
  h !! r = Some o ->
  action o = "EXIT" ->
  positions pf !! ticker o = Some pos ->
  exists o',
    size_order self pf r h = (Ok r, <[r := o']> h)
    /\ Event.quantity o' = Portfolio.quantity pos
    /\ (action o' = "SLD" <-> 0 < Portfolio.quantity pos)
    /\ (action o' = "BOT" <-> Portfolio.quantity pos <= 0)
    /\ ticker o' = ticker o /\ time o' = time o.
Proof.
  intros Hr Ha Hp. exists (liquidation (Portfolio.quantity pos) o).
  split; [by apply size_order_EXIT|].
  unfold liquidation. simpl.
  destruct (Z.ltb_spec 0 (Portfolio.quantity pos)); split_and!; try done;
    split; try done; lia.
Qed.


End SizeOrderMore.

Section SizeOrderMoreExamples.
Import Event Portfolio Rebalance.

Lemma size_order_raise_writes_nothing_witness :
  ({[ 1%positive := Examples.buy_XOM ]} : Heap)
  = {[ 1%positive := Examples.buy_XOM ]}.
Proof.
  apply (size_order_raise_writes_nothing (PP := Examples.five_places)
           Examples.sizer_60_40 Examples.fresh_portfolio 1%positive
           {[ 1%positive := Examples.buy_XOM ]} (KeyError "XOM")).
  vm_compute. reflexivity.
Defined.


Lemma size_order_unusable_price_witness :
  @size_order Examples.five_places Examples.sizer_half
    (mk_portfolio (mk_price_handler ∅) 50000000000 ∅) 1%positive
    {[ 1%positive := Examples.buy_SPY ]}
  = (Raise (KeyError "SPY"), {[ 1%positive := Examples.buy_SPY ]}).
Proof.
  apply (size_order_unusable_price (PP := Examples.five_places)
           Examples.sizer_half
           (mk_portfolio (mk_price_handler ∅) 50000000000 ∅) 1%positive
           {[ 1%positive := Examples.buy_SPY ]} Examples.buy_SPY (1 # 2)%Q);
    [reflexivity | discriminate | reflexivity | reflexivity].
Defined.

Lemma size_order_EXIT_reads_positions_only_witness :
  @size_order Examples.five_places Examples.sizer_60_40
    Examples.long_portfolio 1%positive {[ 1%positive := Examples.exit_SPY ]}
  = @size_order Examples.five_places Examples.sizer_half
      (mk_portfolio Examples.bar_feed_10 (-7)
         (positions Examples.long_portfolio))
      1%positive {[ 1%positive := Examples.exit_SPY ]}.
Proof.
  apply (size_order_EXIT_reads_positions_only (PP := Examples.five_places)
           _ _ _ _ _ _ Examples.exit_SPY); reflexivity.
Defined.

Lemma size_order_idempotent_witness :
  @size_order Examples.five_places Examples.sizer_60_40
    Examples.fresh_portfolio 1%positive
    {[ 1%positive := mk_order None "SPY" "BOT" 3000 ]}
  = (Ok 1%positive, {[ 1%positive := mk_order None "SPY" "BOT" 3000 ]}).
Proof.
  apply (size_order_idempotent (PP := Examples.five_places)
           Examples.sizer_60_40 Examples.fresh_portfolio 1%positive
           {[ 1%positive := Examples.buy_SPY ]} Examples.buy_SPY);
    [reflexivity | discriminate | vm_compute; reflexivity].
Defined.

Lemma size_order_EXIT_twice_witness :
  @size_order Examples.five_places Examples.sizer_60_40
    Examples.long_portfolio 1%positive {[ 1%positive := Examples.exit_SPY ]}
  = (Ok 1%positive,
     <[1%positive := liquidation 3000 Examples.exit_SPY]>
       {[ 1%positive := Examples.exit_SPY ]}).
Proof.
  apply (size_order_EXIT_twice (PP := Examples.five_places)
           Examples.sizer_60_40 Examples.long_portfolio 1%positive
           {[ 1%positive := Examples.exit_SPY ]} Examples.exit_SPY
           (mk_position 3000 10000000 0 0)); reflexivity.
Defined.

Lemma size_order_EXIT_order_witness :
  exists o',
    @size_order Examples.five_places Examples.sizer_60_40
      Examples.short_portfolio 1%positive {[ 1%positive := Examples.exit_SPY ]}
    = (Ok 1%positive, <[1%positive := o']> {[ 1%positive := Examples.exit_SPY ]})
    /\ Event.quantity o' = -5
    /\ (action o' = "BOT" <-> -5 <= 0).
Proof.
  pose proof (size_order_EXIT_order (PP := Examples.five_places)
              Examples.sizer_60_40 Examples.short_portfolio 1%positive
              {[ 1%positive := Examples.exit_SPY ]} Examples.exit_SPY
              (mk_position (-5) 10000000 0 0) eq_refl eq_refl eq_refl)
    as (o' & Hs & Hq & _ & Hb & _).
  exists o'. split; [exact Hs|]. split; [exact Hq | exact Hb].
Defined.


End SizeOrderMoreExamples.

(** ** The monthly strategy, further *)

Section StrategyMore.
Import Event Strategy StrategyNotions.

Implicit Types (self : MonthlyLiquidateRebalanceStrategy).
Implicit Types (t ticker : string) (event : event).

(** X9: [_end_of_month] agrees with the Gregorian calendar on every
    date whose month is between 1 and 12, and raises
    [IllegalMonthError] for any other month number. *)
Theorem _end_of_month_calendar (time : datetime) :
  (1 <= month time <= 12 ->
   _end_of_month time = Ok (is_last_calendar_day time))
  /\ (~ 1 <= month time <= 12 ->
      _end_of_month time = Raise (IllegalMonthError (month time))).
Proof.
  split; [apply _end_of_month_last_calendar_day|].
  intros Hm. unfold _end_of_month, monthrange_ndays.
  destruct (Z.leb_spec 1 (month time)), (Z.leb_spec (month time) 12);
    simpl; try reflexivity. lia.
Qed.

Lemma calculate_signals_tickers event self :
  tickers (snd (calculate_signals event self)) = tickers self.
Proof.
  destruct event as [time ticker|time ticker| | | | |]; try done.
  - rewrite (calculate_signals_market _ time ticker) by (by right).
    destruct (_end_of_month time) as [[]|]; try done.
    rewrite emit_signals_spec. by destruct (tickers_invested self !! ticker).
  - rewrite (calculate_signals_market _ time ticker) by (by left).
    destruct (_end_of_month time) as [[]|]; try done.
    rewrite emit_signals_spec. by destruct (tickers_invested self !! ticker).
Qed.

Lemma calculate_signals_is_Some event self t :
  is_Some (tickers_invested (snd (calculate_signals event self)) !! t)
  <-> is_Some (tickers_invested self !! t).
Proof.
  destruct (calculate_signals_step event self t) as [->|[-> ->]]; [done|].
  split; eauto.
Qed.

(** X10: the strategy keeps its list of tickers, and the keys of the
    invested map are the tickers it was built with, whatever calls
    were made since: no call adds a key and none removes one. *)
Theorem invested_keys_are_the_tickers tickers queue events t :
  let self := run_calls events (__init__ tickers queue) in
  Strategy.tickers self = tickers
  /\ (is_Some (tickers_invested self !! t) <-> t ∈ tickers).
Proof.
  simpl. generalize (eq_refl (__init__ tickers queue)).
  generalize (__init__ tickers queue) at 1 3 4 as self0.
  assert (forall events self0,
    Strategy.tickers (run_calls events self0) = Strategy.tickers self0
    /\ (is_Some (tickers_invested (run_calls events self0) !! t)
        <-> is_Some (tickers_invested self0 !! t))) as Hrun.
  { clear. intros events. induction events as [|e events IH]; intros self0;
      [done|]. simpl. destruct (IH (snd (calculate_signals e self0))) as [-> ->].
    by rewrite calculate_signals_tickers, calculate_signals_is_Some. }
  intros self0 ->. destruct (Hrun events (__init__ tickers queue)) as [-> ->].
  split; [done|]. simpl. unfold _create_invested_list.
  rewrite _create_invested_list_lookup. case_decide; [done|].
  rewrite lookup_empty. split; [by intros [? ?]|done].
Qed.

(** X11: a month-end bar or tick for a ticker that has no entry in the
    invested map raises [KeyError] for that ticker and leaves the
    strategy as it was: nothing is enqueued. *)
Theorem calculate_signals_unknown_ticker event time ticker self :
  event = BarEvent time ticker \/ event = TickEvent time ticker ->
  1 <= month time <= 12 ->
  is_last_calendar_day time = true ->
  tickers_invested self !! ticker = None ->
  calculate_signals event self = (Raise (KeyError ticker), self).
Proof.
  intros Hev Hm Hlast Hnone.
  rewrite (calculate_signals_market _ _ _ _ Hev),
    (_end_of_month_last_calendar_day _ Hm), Hlast, emit_signals_spec.
  by rewrite Hnone.
Qed.

Lemma calculate_signals_queue event self :
  exists added,
    events_queue (snd (calculate_signals event self))
    = events_queue self ++ added
    /\ Forall is_strategy_signal added /\ (length added <= 2)%nat.
Proof.
  assert (forall ticker, exists added,
    events_queue (snd (emit_signals ticker self)) = events_queue self ++ added
    /\ Forall is_strategy_signal added /\ (length added <= 2)%nat) as Hemit.
  { intros ticker. rewrite emit_signals_spec.
    destruct (tickers_invested self !! ticker) as [[]|]; simpl.
    - exists [liquidate_signal ticker; long_signal ticker].
      split_and!; [done| |simpl; lia].
      repeat constructor; exists ticker; first [by left | by right].
    - exists [long_signal ticker]. split_and!; [done| |simpl; lia].
      repeat constructor; exists ticker; by right.
    - exists []. rewrite app_nil_r. split_and!; [done|constructor|simpl; lia]. }
  assert (exists added, events_queue self = events_queue self ++ added
    /\ Forall is_strategy_signal added /\ (length added <= 2)%nat) as Hnone.
  { exists []. rewrite app_nil_r. split_and!; [done|constructor|simpl; lia]. }
  destruct event as [time ticker|time ticker| | | | |]; try exact Hnone.
  - rewrite (calculate_signals_market _ time ticker) by (by right).
    destruct (_end_of_month time) as [[]|]; [apply Hemit|exact Hnone..].
  - rewrite (calculate_signals_market _ time ticker) by (by left).
    destruct (_end_of_month time) as [[]|]; [apply Hemit|exact Hnone..].
Qed.

(** X12: the strategy only appends to the queue, and only signals:
    after any sequence of calls the queue is the old queue followed by
    [EXIT] and [BOT] signals, at most two per call. *)
Theorem run_calls_appends_signals events self :
  exists added,
    events_queue (run_calls events self) = events_queue self ++ added
    /\ Forall is_strategy_signal added
    /\ (length added <= 2 * length events)%nat.
Proof.
  revert self. induction events as [|e events IH]; intros self.
  - exists []. rewrite app_nil_r. split_and!; [done|constructor|simpl; lia].
  - change (run_calls (e :: events) self)
      with (run_calls events (snd (calculate_signals e self))).
    destruct (calculate_signals_queue e self) as (a1 & Hq1 & Hs1 & Hl1).
    destruct (IH (snd (calculate_signals e self))) as (a2 & Hq2 & Hs2 & Hl2).
    exists (a1 ++ a2). split_and!.
    + rewrite Hq2, Hq1. by rewrite app_assoc.
    + by apply Forall_app.
    + rewrite length_app. simpl. lia.
Qed.




(** The invariant behind X14: a ticker whose flag is true has a [BOT]
    signal in the queue, and every [EXIT] signal in the queue comes
    after a [BOT] signal for the same ticker. *)
Lemma liquidation_order_step event self :
  (forall t, tickers_invested self !! t = Some true ->
             exists j, events_queue self !! j = Some (long_signal t)) ->
  (forall i t, events_queue self !! i = Some (liquidate_signal t) ->
               exists j, (j < i)%nat
                         /\ events_queue self !! j = Some (long_signal t)) ->
  let self' := snd (calculate_signals event self) in
  (forall t, tickers_invested self' !! t = Some true ->
             exists j, events_queue self' !! j = Some (long_signal t))
  /\ (forall i t, events_queue self' !! i = Some (liquidate_signal t) ->
                  exists j, (j < i)%nat
                            /\ events_queue self' !! j = Some (long_signal t)).
Proof.
  intros Hflag Hexit.
  assert (forall ticker,
    let self' := snd (emit_signals ticker self) in
    (forall t, tickers_invested self' !! t = Some true ->
               exists j, events_queue self' !! j = Some (long_signal t))
    /\ (forall i t, events_queue self' !! i = Some (liquidate_signal t) ->
                    exists j, (j < i)%nat
                      /\ events_queue self' !! j = Some (long_signal t)))
    as Hemit.
  { intros ticker. rewrite emit_signals_spec.
    destruct (tickers_invested self !! ticker) as [b|] eqn:Hb; simpl; [|done].
    set (q := events_queue self) in *.
    split.
    - intros t Ht. destruct (decide (ticker = t)) as [->|Hne].
      + exists (length q + length (if b then [liquidate_signal t] else []))%nat.
        rewrite app_assoc, lookup_app_r by (rewrite length_app; lia).
        rewrite length_app. by replace (_ - _)%nat with O by lia.
      + rewrite lookup_insert_ne in Ht by done.
        destruct (Hflag t Ht) as [j Hj]. exists j.
        by rewrite lookup_app_l by (by eapply lookup_lt_Some).
    - intros i t Hi. destruct (decide (i < length q)%nat) as [Hlt|Hge].
      + rewrite lookup_app_l in Hi by done.
        destruct (Hexit i t Hi) as (j & Hji & Hj). exists j. split; [done|].
        by rewrite lookup_app_l by lia.
      + rewrite lookup_app_r in Hi by lia.
        destruct b; simpl in Hi.
        * destruct (i - length q)%nat as [|[|k]] eqn:Hk; simpl in Hi;
            [|discriminate Hi..].
          injection Hi as <-.
          destruct (Hflag ticker Hb) as [j Hj]. exists j.
          pose proof (lookup_lt_Some _ _ _ Hj). split; [lia|].
          by rewrite lookup_app_l by done.
        * destruct (i - length q)%nat as [|k]; simpl in Hi; discriminate Hi. }
  destruct event as [time ticker|time ticker| | | | |]; try done.
  - rewrite (calculate_signals_market _ time ticker) by (by right).
    destruct (_end_of_month time) as [[]|]; [apply Hemit|done..].
  - rewrite (calculate_signals_market _ time ticker) by (by left).
    destruct (_end_of_month time) as [[]|]; [apply Hemit|done..].
Qed.

(** X14: a strategy that starts with an empty queue never asks for a
    liquidation before the first allocation: in the queue left by any
    sequence of calls, every [EXIT] signal for a ticker comes after a
    [BOT] signal for that ticker. *)
Theorem liquidation_follows_allocation tickers events i t :
  let queue := events_queue (run_calls events (__init__ tickers [])) in
  queue !! i = Some (liquidate_signal t) ->
  exists j, (j < i)%nat /\ queue !! j = Some (long_signal t).
Proof.
  assert (forall events self,
    (forall t, tickers_invested self !! t = Some true ->
               exists j, events_queue self !! j = Some (long_signal t)) ->
    (forall i t, events_queue self !! i = Some (liquidate_signal t) ->
                 exists j, (j < i)%nat
                           /\ events_queue self !! j = Some (long_signal t)) ->
    forall i t,
      events_queue (run_calls events self) !! i = Some (liquidate_signal t) ->
      exists j, (j < i)%nat
        /\ events_queue (run_calls events self) !! j = Some (long_signal t))
    as Hrun.
  { clear. intros events. induction events as [|e events IH];
      intros self Hflag Hexit; [done|].
    destruct (liquidation_order_step e self Hflag Hexit) as [Hflag' Hexit'].
    by apply (IH _ Hflag' Hexit'). }
  simpl. apply Hrun.
  - intros t0 Ht0. simpl in Ht0. unfold _create_invested_list in Ht0.
    rewrite _create_invested_list_lookup in Ht0. by case_decide.
  - intros i0 t0 Hi0. done.
Qed.

End StrategyMore.

Section StrategyMoreExamples.
Import Event Strategy StrategyNotions.

Lemma _end_of_month_calendar_witness :
  _end_of_month Examples.feb_29 = Ok true
  /\ _end_of_month (mk_datetime 2016 13 1 0 0 0 0)
     = Raise (IllegalMonthError 13).
Proof.
  split.
  - apply (_end_of_month_calendar Examples.feb_29). simpl. lia.
  - apply (_end_of_month_calendar (mk_datetime 2016 13 1 0 0 0 0)).
    simpl. lia.
Defined.

Lemma calculate_signals_unknown_ticker_witness :
  calculate_signals (BarEvent Examples.feb_29 "XOM") Examples.fresh_strategy
  = (Raise (KeyError "XOM"), Examples.fresh_strategy).
Proof.
  apply (calculate_signals_unknown_ticker (BarEvent Examples.feb_29 "XOM")
           Examples.feb_29 "XOM" Examples.fresh_strategy);
    [by left | simpl; lia | reflexivity | reflexivity].
Defined.


Lemma liquidation_follows_allocation_witness :
  exists j : nat,
    (j < 1)%nat
    /\ events_queue
         (run_calls
            [BarEvent Examples.feb_29 "SPY"; BarEvent Examples.mar_31 "SPY"]
            (__init__ ["SPY"] [])) !! j
       = Some (long_signal "SPY").
Proof.
  apply (liquidation_follows_allocation ["SPY"]
           [BarEvent Examples.feb_29 "SPY"; BarEvent Examples.mar_31 "SPY"]
           1%nat "SPY").
  reflexivity.
Defined.

End StrategyMoreExamples.

(** ** The trading session, further *)

Section SessionMore.
Import Event TradingSession.
Context {PP : PriceParser} {C : Collaborators}.

Implicit Types (self : TradingSession) (w : World) (s : St).

Ltac config_cases H :=
  repeat match type of H with
         | context [match ?x with _ => _ end] =>
             lazymatch x with
             | context [match _ with _ => _ end] => fail
             | _ => destruct x eqn:?; simpl in H; try discriminate H
             end
         end.

Lemma _config_session_outcome self w self' w' :
  _config_session (self, w) = (Ok tt, (self', w')) ->
  (is_Some (position_sizer self') /\ is_Some (risk_manager self')
   /\ is_Some (portfolio_handler self') /\ is_Some (compliance self')
   /\ is_Some (execution_handler self') /\ is_Some (statistics self')
   /\ (session_type self = "backtest" -> is_Some (price_handler self')))
  /\ (forall x, price_handler self = Some x -> price_handler self' = Some x)
  /\ (forall x, position_sizer self = Some x -> position_sizer self' = Some x)
  /\ (forall x, risk_manager self = Some x -> risk_manager self' = Some x)
  /\ (forall x, portfolio_handler self = Some x ->
                portfolio_handler self' = Some x)
  /\ (forall x, compliance self = Some x -> compliance self' = Some x)
  /\ (forall x, execution_handler self = Some x ->
                execution_handler self' = Some x)
  /\ (forall x, statistics self = Some x -> statistics self' = Some x)
  /\ sentiment_handler self' = sentiment_handler self
  /\ (price_handler self = None -> session_type self <> "backtest" ->
      price_handler self' = None).
Proof.
  intros Hcfg.
  destruct self as [est cfg stg tk eq sd ed q ph pfh cp eh ps rm sts sh
                      ti bm ty ct].
  unfold _config_session, bind, self_, gets, update_self, modify, call,
    lift, ret in Hcfg.
  simpl in Hcfg. config_cases Hcfg.
  all: simplify_eq; simpl; split_and!; eauto; try done.
  all: try (intros _ Hty;
    match goal with
    | Hb : bool_decide _ = true |- _ =>
        by apply bool_decide_eq_true in Hb
    end).
  all: intros Hty;
    match goal with
    | Hb : bool_decide _ = false |- _ =>
        by apply bool_decide_eq_false in Hb
    end.
Qed.

(** X15: when [_config_session] returns, the session has a position
    sizer, a risk manager, a portfolio handler, a compliance component,
    an execution handler and statistics, and a backtest session has a
    price handler; every component that was supplied is still the one
    in place, and the sentiment handler is as it was. *)
Theorem _config_session_completes self w self' w' :
  _config_session (self, w) = (Ok tt, (self', w')) ->
  (is_Some (position_sizer self') /\ is_Some (risk_manager self')
   /\ is_Some (portfolio_handler self') /\ is_Some (compliance self')
   /\ is_Some (execution_handler self') /\ is_Some (statistics self')
   /\ (session_type self = "backtest" -> is_Some (price_handler self')))
  /\ (forall x, price_handler self = Some x -> price_handler self' = Some x)
  /\ (forall x, position_sizer self = Some x -> position_sizer self' = Some x)
  /\ (forall x, risk_manager self = Some x -> risk_manager self' = Some x)
  /\ (forall x, portfolio_handler self = Some x ->
                portfolio_handler self' = Some x)
  /\ (forall x, compliance self = Some x -> compliance self' = Some x)
  /\ (forall x, execution_handler self = Some x ->
                execution_handler self' = Some x)
  /\ (forall x, statistics self = Some x -> statistics self' = Some x)
  /\ sentiment_handler self' = sentiment_handler self.
Proof.
  intros Hcfg. pose proof (_config_session_outcome _ _ _ _ Hcfg) as Hout.
  destruct Hout as (Hall & ? & ? & ? & ? & ? & ? & ? & ? & _).
  split; [exact Hall|]. by split_and!.
Qed.

(** X16: a session that is given all its components builds none: when
    the position sizer, the risk manager, the portfolio handler, the
    compliance component, the execution handler and the statistics are
    supplied, and the price handler too unless the session is not a
    backtest, [_config_session] returns without a change to the session
    or to the world. *)
Theorem _config_session_supplied self w :
  is_Some (position_sizer self) -> is_Some (risk_manager self) ->
  is_Some (portfolio_handler self) -> is_Some (compliance self) ->
  is_Some (execution_handler self) -> is_Some (statistics self) ->
  is_Some (price_handler self) \/ session_type self <> "backtest" ->
  _config_session (self, w) = (Ok tt, (self, w)).
Proof.
  destruct self as [est cfg stg tk eq sd ed q ph pfh cp eh ps rm sts sh
                      ti bm ty ct]. simpl.
  intros [? ->] [? ->] [? ->] [? ->] [? ->] [? ->] Hph.
  unfold _config_session, bind, self_, gets, update_self, modify, call,
    lift, ret. simpl.
  destruct Hph as [[? ->]|Hty]; [done|].
  destruct ph; [done|]. by rewrite (bool_decide_eq_false_2 _ Hty).
Qed.

(** X17: a session that is not a backtest and was given no price
    handler still has none after [_config_session], and its first pass
    through the loop on an empty queue raises [AttributeError], from
    the call of [stream_next] on [None]. *)
Theorem session_without_price_handler :
  (forall self w self' w',
      _config_session (self, w) = (Ok tt, (self', w')) ->
      price_handler self = None -> session_type self <> "backtest" ->
      price_handler self' = None)
  /\ (forall s w',
      price_handler (fst s) = None ->
      get (events_queue (fst s)) (snd s) = (None, w') ->
      loop_body s = (Raise (AttributeError "stream_next"), (fst s, w'))).
Proof.
  split.
  - intros self w self' w' Hcfg.
    by destruct (_config_session_outcome _ _ _ _ Hcfg)
      as (_ & _ & _ & _ & _ & _ & _ & _ & _ & ?).
  - intros s w' Hph Hget. unfold loop_body, bind, self_, gets, call. simpl.
    rewrite Hget. simpl. by rewrite Hph.
Qed.

(** X18: the loop of a backtest whose feed reports exhaustion is left
    at once, whatever is still in the queue: no event is dequeued and
    neither the session nor the world changes. *)
Theorem exhausted_feed_leaves_queue self w ph fuel :
  session_type self = "backtest" ->
  price_handler self = Some ph ->
  continue_backtest ph w = false ->
  _run_session (S fuel) (self, w) = (Ok Finished, (self, w)).
Proof.
  intros Hty Hph Hc. unfold _run_session.
  by rewrite while_loop_unfold,
    (_continue_loop_condition_backtest _ _ _ Hty Hph), Hc.
Qed.

Lemma keeps_not_None {A} (name : string) (o : option A) :
  keeps_settings (not_None name o).
Proof. destruct o; [apply keeps_ret | apply keeps_raise]. Qed.

Ltac keeps_more :=
  first
    [ apply keeps_bind; [|intros ?]
    | apply keeps_self_
    | apply keeps_call
    | apply keeps_lift
    | apply keeps_ret
    | apply keeps_raise
    | apply keeps_not_None
    | apply keeps_update_self; intros []; reflexivity
    | match goal with
      | |- keeps_settings (match ?c with _ => _ end) => destruct c
      end ].

Lemma loop_body_keeps_settings : keeps_settings loop_body.
Proof.
  unfold loop_body. repeat keeps_more; unfold dispatch; repeat keeps_more.
Qed.

Lemma _continue_loop_condition_keeps_settings :
  keeps_settings _continue_loop_condition.
Proof. unfold _continue_loop_condition. repeat keeps_more. Qed.

(** X19: the loop never changes the type of the session nor its end of
    session time, however it ends. *)
Theorem _run_session_keeps_settings (fuel : nat) s r s' :
  _run_session fuel s = (r, s') ->
  session_type (fst s') = session_type (fst s)
  /\ end_session_time (fst s') = end_session_time (fst s).
Proof.
  assert (keeps_settings (while_loop fuel)) as Hkeeps; [|apply Hkeeps].
  induction fuel as [|fuel IH]; simpl; [apply keeps_ret|].
  apply keeps_bind; [apply _continue_loop_condition_keeps_settings|].
  intros []; [|apply keeps_ret].
  apply keeps_bind; [apply loop_body_keeps_settings | by intros _].
Qed.

(** A computation leaves the session object alone. *)
Lemma self_fixed_bind {A B} (m : M St A) (k : A -> M St B) s :
  (forall s, fst (snd (m s)) = fst s) ->
  (forall a s, fst (snd (k a s)) = fst s) ->
  fst (snd (bind m k s)) = fst s.
Proof.
  intros Hm Hk. unfold bind. specialize (Hm s).
  destruct (m s) as [[a|e] s1]; simpl in *; [|done].
  by rewrite Hk.
Qed.

Lemma self_fixed_call {A} (m : M World A) s : fst (snd (call m s)) = fst s.
Proof. unfold call. by destruct (m (snd s)). Qed.

Lemma self_fixed_not_None {A} (name : string) (o : option A) s :
  fst (snd (not_None name o s)) = fst s.
Proof. by destruct o. Qed.

Ltac self_fixed :=
  repeat first
    [ apply self_fixed_call
    | apply self_fixed_not_None
    | reflexivity
    | apply self_fixed_bind; intros
    | match goal with
      | |- context [match ?c with _ => _ end] => destruct c
      end ].

(** X20: of the session object, the dispatch of an event changes only
    the current time, and only for a bar or a tick: [cur_time] then
    holds the time of the event, also when a collaborator raises
    afterwards; every other event leaves the object as it was. *)
Theorem dispatch_changes_cur_time_only (e : event) s :
  fst (snd (dispatch e s))
  = match e with
    | TickEvent time _ | BarEvent time _ =>
        set_cur_time (Some time) (fst s)
    | _ => fst s
    end.
Proof.
  destruct e as [time ticker|time ticker| | | | |]; unfold dispatch;
    try (by self_fixed).
  - unfold bind at 1. simpl.
    transitivity (fst (set_cur_time (Some time) s.1, s.2)); [|done].
    generalize (set_cur_time (Some time) s.1, s.2). intros s1. self_fixed.
  - unfold bind at 1. simpl.
    transitivity (fst (set_cur_time (Some time) s.1, s.2)); [|done].
    generalize (set_cur_time (Some time) s.1, s.2). intros s1. self_fixed.
Qed.

(** X21: a run of the loop raises exactly when, after some passes each
    entered on a true condition, the condition raises or the next pass
    raises; and it reaches its bound exactly when that many passes can
    be made. *)
Theorem _run_session_raises_or_runs_out (fuel : nat) s s' :
  (forall e,
      _run_session fuel s = (Raise e, s') <->
      exists (k : nat) s_k,
        (k < fuel)%nat /\ iterations k s = Some s_k
        /\ (_continue_loop_condition s_k = (Raise e, s')
            \/ exists s1, _continue_loop_condition s_k = (Ok true, s1)
                          /\ loop_body s1 = (Raise e, s')))
  /\ (_run_session fuel s = (Ok OutOfFuel, s') <->
      iterations fuel s = Some s').
Proof.
  unfold _run_session. revert s. induction fuel as [|fuel IH]; intros s.
  - split; [intros e; split; [done|]|].
    + intros (k & _ & Hk & _). lia.
    + simpl. unfold ret. split; congruence.
  - rewrite while_loop_unfold. split; [intros e; split|].
    + destruct (_continue_loop_condition s) as [[[]|e0] s1] eqn:Hc.
      * destruct (loop_body s1) as [[]s2] eqn:Hb.
        -- intros (k & s_k & Hk & Hit & Hend)%(proj1 (IH s2)).
           exists (S k), s_k. split; [lia|]. split; [|done].
           simpl. by rewrite Hc, Hb.
        -- intros [= <- <-]. exists O, s. split; [lia|]. split; [done|].
           right. by exists s1.
      * done.
      * intros [= <- <-]. exists O, s. split; [lia|]. split; [done|].
        by left.
    + intros ([|k] & s_k & Hk & Hit & Hend).
      * injection Hit as <-.
        destruct Hend as [->|(s1 & -> & ->)]; done.
      * simpl in Hit.
        destruct (_continue_loop_condition s) as [[[]|] s1]; [|done..].
        destruct (loop_body s1) as [[]s2]; [|done].
        apply (proj1 (IH s2)). exists k, s_k. split; [lia|]. done.
    + simpl iterations.
      destruct (_continue_loop_condition s) as [[[]|] s1]; [|done..].
      destruct (loop_body s1) as [[]s2]; [|done].
      apply (proj2 (IH s2)).
Qed.

End SessionMore.

Section StartTrading.
Import Event TradingSession Reporting.
Context {C : Collaborators} {R : Results}.

(** X22: [start_trading] hands on an exception of the loop without
    asking for results; once the loop has ended, results that lack the
    Sharpe ratio or the maximum drawdown raise [KeyError] for that key
    before anything is plotted, whatever [testing] is; otherwise, with
    [testing] set, the results of [get_results] are returned and
    [plot_results] is not called, and without it they are returned
    after [plot_results] has run. *)
Theorem start_trading_outcomes (fuel : nat) (s : St) :
  (forall testing e s',
      _run_session fuel s = (Raise e, s') ->
      start_trading fuel testing s = (Raise e, s'))
  /\ (forall testing s1 st results w2,
      _run_session fuel s = (Ok Finished, s1) ->
      statistics (fst s1) = Some st ->
      get_results st (snd s1) = (Ok results, w2) ->
      (results !! "sharpe" = None ->
       start_trading fuel testing s
       = (Raise (KeyError "sharpe"), (fst s1, w2)))
      /\ (is_Some (results !! "sharpe") ->
          results !! "max_drawdown_pct" = None ->
          start_trading fuel testing s
          = (Raise (KeyError "max_drawdown_pct"), (fst s1, w2)))
      /\ (is_Some (results !! "sharpe") ->
          is_Some (results !! "max_drawdown_pct") ->
          start_trading fuel true s = (Ok (Some results), (fst s1, w2))
          /\ start_trading fuel false s
             = (match fst (plot_results st w2) with
                | Ok _ => Ok (Some results)
                | Raise e => Raise e
                end, (fst s1, snd (plot_results st w2))))).
Proof.
  split.
  - intros testing e s' Hrun. unfold start_trading, bind. by rewrite Hrun.
  - intros testing [self1 w1] st results w2 Hrun Hst Hres. simpl in *.
    assert (forall testing,
      start_trading fuel testing s
      = match getitem results "sharpe" with
        | Raise e => (Raise e, (self1, w2))
        | Ok _ =>
            match getitem results "max_drawdown_pct" with
            | Raise e => (Raise e, (self1, w2))
            | Ok _ =>
                if testing then (Ok (Some results), (self1, w2))
                else (match fst (plot_results st w2) with
                      | Ok _ => Ok (Some results)
                      | Raise e => Raise e
                      end, (self1, snd (plot_results st w2)))
            end
        end) as Hstart.
    { intros tst. unfold start_trading, bind at 1. rewrite Hrun.
      unfold bind, self_, gets, call, lift, ret. simpl. rewrite Hst. simpl.
      rewrite Hres. simpl.
      destruct (getitem results "sharpe"); [|done].
      destruct (getitem results "max_drawdown_pct"); [|done].
      destruct tst; simpl; [done|]. rewrite Hst. simpl.
      by destruct (plot_results st w2) as [[] w3]. }
    split_and!.
    + intros Hs. by rewrite Hstart, (getitem_None _ _ Hs).
    + intros [x Hs] Hm.
      by rewrite Hstart, (getitem_Some _ _ _ Hs), (getitem_None _ _ Hm).
    + intros [x Hs] [y Hm].
      by rewrite !Hstart, (getitem_Some _ _ _ Hs), (getitem_Some _ _ _ Hm).
Qed.

End StartTrading.

Section SessionMoreExamples.
Import Event TradingSession Reporting.

Lemma _config_session_completes_witness :
  is_Some (statistics Examples.backtest_session)
  /\ is_Some (price_handler Examples.backtest_session).
Proof.
  pose proof (_config_session_completes (C := Examples.sim)
    (initial_self (Examples.session_args "backtest" None) 50000000000)
    (Examples.mk_world [] 1 Examples.feb_28)
    Examples.backtest_session (Examples.mk_world [] 1 Examples.feb_28)
    eq_refl) as [(_ & _ & _ & _ & _ & Hst & Hph) _].
  split; [exact Hst | apply Hph; reflexivity].
Defined.

Lemma _config_session_supplied_witness :
  _config_session (C := Examples.sim)
    (Examples.backtest_session, Examples.mk_world [] 1 Examples.feb_28)
  = (Ok tt, (Examples.backtest_session, Examples.mk_world [] 1 Examples.feb_28)).
Proof.
  apply (_config_session_supplied (C := Examples.sim));
    simpl; eauto.
Defined.

Lemma session_without_price_handler_witness :
  loop_body (C := Examples.sim)
    (set_price_handler None Examples.live_session,
     Examples.mk_world [] 0 Examples.feb_28)
  = (Raise (AttributeError "stream_next"),
     (set_price_handler None Examples.live_session,
      Examples.mk_world [] 0 Examples.feb_28)).
Proof.
  destruct (session_without_price_handler (C := Examples.sim)) as [_ Hloop].
  apply (Hloop (set_price_handler None Examples.live_session,
                Examples.mk_world [] 0 Examples.feb_28)); reflexivity.
Defined.

Lemma exhausted_feed_leaves_queue_witness :
  _run_session (C := Examples.sim) 5
    (Examples.backtest_session,
     Examples.mk_world [Some (BarEvent Examples.feb_29 "SPY")] 0
       Examples.feb_28)
  = (Ok Finished,
     (Examples.backtest_session,
      Examples.mk_world [Some (BarEvent Examples.feb_29 "SPY")] 0
        Examples.feb_28)).
Proof.
  apply (exhausted_feed_leaves_queue (C := Examples.sim)
           Examples.backtest_session _ tt 4); reflexivity.
Defined.

Lemma _run_session_keeps_settings_witness :
  session_type Examples.backtest_session = "backtest"
  /\ end_session_time Examples.backtest_session = None.
Proof.
  apply (_run_session_keeps_settings (C := Examples.sim) 3
           (Examples.backtest_session, Examples.mk_world [] 1 Examples.feb_28)
           (Ok Finished)
           (Examples.backtest_session,
            Examples.mk_world [Some (BarEvent Examples.feb_28 "SPY")] 0
              Examples.feb_28)).
  reflexivity.
Defined.

Lemma _run_session_raises_or_runs_out_witness :
  _run_session (C := Examples.sim) 1
    (Examples.backtest_session, Examples.mk_world [] 2 Examples.feb_28)
  = (Ok OutOfFuel,
     (Examples.backtest_session,
      Examples.mk_world [Some (BarEvent Examples.feb_28 "SPY")] 1
        Examples.feb_28)).
Proof.
  apply (_run_session_raises_or_runs_out (C := Examples.sim)). reflexivity.
Defined.

Lemma start_trading_outcomes_witness :
  start_trading (R := MoreExamples.no_sharpe) 3 false
    (Examples.backtest_session, Examples.mk_world [] 1 Examples.feb_28)
  = (Raise (KeyError "sharpe"),
     (Examples.backtest_session,
      Examples.mk_world [Some (BarEvent Examples.feb_28 "SPY")] 0
        Examples.feb_28))
  /\ start_trading (R := MoreExamples.sim_results) 3 true
       (Examples.backtest_session, Examples.mk_world [] 1 Examples.feb_28)
     = (Ok (Some {[ "sharpe" := (3 # 2)%Q;
                    "max_drawdown_pct" := (1 # 10)%Q ]}),
        (Examples.backtest_session,
         Examples.mk_world [Some (BarEvent Examples.feb_28 "SPY")] 0
           Examples.feb_28)).
Proof.
  split.
  - destruct (start_trading_outcomes (R := MoreExamples.no_sharpe) 3
                (Examples.backtest_session,
                 Examples.mk_world [] 1 Examples.feb_28)) as [_ Hend].
    destruct (Hend false
                (Examples.backtest_session,
                 Examples.mk_world [Some (BarEvent Examples.feb_28 "SPY")] 0
                   Examples.feb_28)
                tt {[ "max_drawdown_pct" := (1 # 10)%Q ]}
                (Examples.mk_world [Some (BarEvent Examples.feb_28 "SPY")] 0
                   Examples.feb_28)) as [Hmissing _]; [reflexivity..|].
    apply Hmissing. reflexivity.
  - destruct (start_trading_outcomes (R := MoreExamples.sim_results) 3
                (Examples.backtest_session,
                 Examples.mk_world [] 1 Examples.feb_28)) as [_ Hend].
    destruct (Hend true
                (Examples.backtest_session,
                 Examples.mk_world [Some (BarEvent Examples.feb_28 "SPY")] 0
                   Examples.feb_28)
                tt {[ "sharpe" := (3 # 2)%Q; "max_drawdown_pct" := (1 # 10)%Q ]}
                (Examples.mk_world [Some (BarEvent Examples.feb_28 "SPY")] 0
                   Examples.feb_28)) as (_ & _ & Hok); [reflexivity..|].
    apply Hok; eexists; reflexivity.
Defined.

End SessionMoreExamples.

(** ** The settings *)

Section SettingsProperties.
Import Settings.
Context {P : Platform}.

Implicit Types (p : Process) (key root fname : string).

(** The name of the environment variable that [from_env] reads. *)
Lemma from_env_unfold key default_value root p :
  from_env key default_value root p
  = if empty_default default_value then
      match environ p
            !! (if bool_decide (root <> "") then root +:+ "_" +:+ upper key
                else upper key) with
      | Some v => (Ok (Some v), p)
      | None =>
          (Ok default_value,
           {| environ := environ p; files := files p; stdout := stdout p;
              warnings :=
                warnings p
                ++ ["You should pass " +:+ key +:+ " using --" +:+ key
                    +:+ " or using environment variable "
                    +:+ repr (if bool_decide (root <> "")
                              then root +:+ "_" +:+ upper key
                              else upper key)] |})
      end
    else (Ok default_value, p).
Proof.
  unfold from_env. destruct (empty_default default_value); [|done].
  unfold bind, gets, getitem. simpl.
  by destruct (environ p !! _).
Qed.


(** X24: the default configuration does not depend on the environment:
    whatever variables are set, [DEFAULT] holds [~/data] and [~/out],
    and computing it issues no warning. *)
Theorem DEFAULT_ignores_environment p :
  DEFAULT p
  = (Ok (dict_value
           {[ "CSV_DATA_DIR" := Some "~/data"; "OUTPUT_DIR" := Some "~/out" ]}),
     p).
Proof.
  unfold DEFAULT, bind. by rewrite !from_env_unfold.
Qed.

Lemma from_file_readable default fname p content :
  read_file (expanduser fname) (files p) = Some content ->
  from_file default fname false p = (safe_load content, p).
Proof.
  intros Hread. unfold from_file, bind, gets, lift, ret. simpl.
  rewrite Hread. by destruct (safe_load content).
Qed.

(** X25: [from_file] only reads when it is testing or when the file can
    be read: with [testing] set it returns [TEST] without a look at the
    files; otherwise, for a file that can be read, it returns what
    [yaml.safe_load] makes of the content, and an error of the YAML
    parser is raised to the caller; in both cases nothing is printed
    and nothing is written. *)
Theorem from_file_reads_only default fname p :
  from_file default fname true p = (Ok TEST, p)
  /\ (forall content,
      read_file (expanduser fname) (files p) = Some content ->
      from_file default fname false p = (safe_load content, p)).
Proof. split; [done | apply from_file_readable]. Qed.

(** The process after [from_file] has handled a missing file. *)
Lemma from_file_missing_unfold default fname p :
  read_file (expanduser fname) (files p) = None ->
  from_file default fname false p
  = (Ok default,
     {| environ := environ p;
        files := snd (write_file (expanduser fname) (dump default) (files p));
        stdout :=
          stdout p
          ++ ["A configuration file named '" +:+ fname +:+ "' is missing";
              creating_message (dump default)]
          ++ (if fst (write_file (expanduser fname) (dump default) (files p))
              then [] else ["Can create '" +:+ fname +:+ "'"])
          ++ ["Trying anyway with default configuration"];
        warnings := warnings p |}).
Proof.
  intros Hread. unfold from_file, bind, gets. simpl. rewrite Hread.
  unfold print, modify, ret. simpl.
  destruct (write_file _ _ _) as [[] fs']; simpl;
    by rewrite <- !app_assoc.
Qed.

(** X26: when the file cannot be read, [from_file] never raises and
    returns the default configuration, whether or not the file could
    be written; it tries once to write the dump of the default
    configuration under the expanded name, and prints that the file is
    missing, the dump, [Can create ...] when the writing failed, and
    that it goes on with the default configuration. *)
Theorem from_file_missing default fname p :
  read_file (expanduser fname) (files p) = None ->
  exists p',
    from_file default fname false p = (Ok default, p')
    /\ files p' = snd (write_file (expanduser fname) (dump default) (files p))
    /\ environ p' = environ p /\ warnings p' = warnings p
    /\ stdout p'
       = stdout p
         ++ ["A configuration file named '" +:+ fname +:+ "' is missing";
             creating_message (dump default)]
         ++ (if fst (write_file (expanduser fname) (dump default) (files p))
             then [] else ["Can create '" +:+ fname +:+ "'"])
         ++ ["Trying anyway with default configuration"].
Proof.
  intros Hread. eexists. rewrite (from_file_missing_unfold _ _ _ Hread).
  by split_and!.
Qed.

(** X27: the file that [from_file] creates is the one it reads next
    time: on a file system where a text that was written can be read
    back, and for a default configuration that YAML dumps and loads
    back, a second call returns the default configuration again,
    prints nothing and writes nothing. *)
Theorem from_file_reads_what_it_wrote default fname p fs' :
  (forall path text fs fs1,
      write_file path text fs = (true, fs1) ->
      read_file path fs1 = Some text) ->
  safe_load (dump default) = Ok default ->
  read_file (expanduser fname) (files p) = None ->
  write_file (expanduser fname) (dump default) (files p) = (true, fs') ->
  exists p1,
    from_file default fname false p = (Ok default, p1)
    /\ files p1 = fs'
    /\ from_file default fname false p1 = (Ok default, p1).
Proof.
  intros Hfs Hyaml Hread Hwrite.
  pose (p1 :=
    {| environ := environ p; files := fs';
       stdout :=
         stdout p
         ++ ["A configuration file named '" +:+ fname +:+ "' is missing";
             creating_message (dump default)]
         ++ [] ++ ["Trying anyway with default configuration"];
       warnings := warnings p |}).
  exists p1. split_and!.
  - by rewrite (from_file_missing_unfold _ _ _ Hread), Hwrite.
  - done.
  - rewrite (from_file_readable default fname p1 (dump default));
      [by rewrite Hyaml|].
    simpl. by apply (Hfs _ _ _ _ Hwrite).
Qed.

End SettingsProperties.

Section SettingsExamples.
Import Settings.


Lemma from_file_reads_only_witness :
  from_file (P := MoreExamples.toy_platform) TEST "~/qstrader.yml" false
    (mk_process (P := MoreExamples.toy_platform) ∅
       {[ "~/qstrader.yml" := "/srv/data" ]} [] [])
  = (Ok {[ "CSV_DATA_DIR" := Some "/srv/data"; "OUTPUT_DIR" := Some "out" ]},
     mk_process (P := MoreExamples.toy_platform) ∅
       {[ "~/qstrader.yml" := "/srv/data" ]} [] []).
Proof.
  destruct (from_file_reads_only (P := MoreExamples.toy_platform) TEST
              "~/qstrader.yml"
              (mk_process (P := MoreExamples.toy_platform) ∅
                 {[ "~/qstrader.yml" := "/srv/data" ]} [] []))
    as [_ Hread].
  apply (Hread "/srv/data"). reflexivity.
Defined.

Lemma from_file_missing_witness :
  exists p',
    from_file (P := MoreExamples.read_only_platform) TEST "~/qstrader.yml"
      false (mk_process (P := MoreExamples.read_only_platform) ∅ ∅ [] [])
    = (Ok TEST, p')
    /\ files p' = (∅ : gmap string string).
Proof.
  destruct (from_file_missing (P := MoreExamples.read_only_platform) TEST
              "~/qstrader.yml"
              (mk_process (P := MoreExamples.read_only_platform) ∅ ∅ [] []))
    as (p' & Hfile & Hfiles & _); [reflexivity|].
  exists p'. split; [exact Hfile | exact Hfiles].
Defined.

Lemma from_file_reads_what_it_wrote_witness :
  exists p1,
    from_file (P := MoreExamples.toy_platform) TEST "~/qstrader.yml" false
      MoreExamples.bare_process
    = (Ok TEST, p1)
    /\ files p1 = ({[ "~/qstrader.yml" := "data" ]} : gmap string string)
    /\ from_file (P := MoreExamples.toy_platform) TEST "~/qstrader.yml" false p1
       = (Ok TEST, p1).
Proof.
  apply (from_file_reads_what_it_wrote (P := MoreExamples.toy_platform) TEST
           "~/qstrader.yml" MoreExamples.bare_process
           {[ "~/qstrader.yml" := "data" ]}).
  - intros path text fs fs1 [= <-]. apply lookup_insert_eq.
  - reflexivity.
  - reflexivity.
  - reflexivity.
Defined.

End SettingsExamples.
